(** * Verification of the portfolio backend (src/python/app.py)

    A shallow embedding of the Flask request handlers of [app.py] and the
    properties its specification states about them.

    Modelling conventions.
    - A Python [str] is a [string], one [ascii] per character; the model
      covers the characters U+0000 to U+00FF.
    - Python objects are values of type [pyval].  Dictionaries are the only
      objects the program mutates ([project['id'] = ...]); they live in a
      heap and are referred to by address, so that two references to one
      dictionary observe each other's updates.  Lists and scalars are never
      mutated by the program and are represented by value.
    - A handler is a computation in a state-and-exception monad over the
      heap.  An exception that leaves a handler is the request failing
      (Flask answers 500).
    - The file system, [yaml.safe_load] and [markdown.markdown] are not code
      of the program: they are parameters of the development. *)

From Stdlib Require Import ZArith Ascii DecimalString Lia.
From Stdlib Require DecimalNat DecimalFacts.
From stdpp Require Import base option list strings.

#[local] Set Warnings "-register-all".

(** ** Python string operations used by the program *)

Module PyStr.

Definition code (c : ascii) : nat := nat_of_ascii c.

(** Characters of U+0000..U+00FF that [str.lower] changes: A-Z, and the
    Latin-1 capitals U+00C0..U+00DE except the multiplication sign U+00D7. *)
Definition is_upper (c : ascii) : bool :=
  let n := code c in
  (((65 <=? n) && (n <=? 90))
   || ((192 <=? n) && (n <=? 222) && negb (n =? 215)))%nat.

Definition lower_char (c : ascii) : ascii :=
  if is_upper c then ascii_of_nat (code c + 32) else c.

(** [s.lower()] *)
Fixpoint lower (s : string) : string :=
  match s with
  | EmptyString => EmptyString
  | String c r => String (lower_char c) (lower r)
  end.

(** [s.replace(old, new)] for a non-empty [old]: scan from the left; where
    [old] starts, emit [new] and skip over the occurrence ([skip] counts the
    characters of it still to pass), elsewhere copy the character. *)
Fixpoint replace_go (old new : string) (skip : nat) (s : string) : string :=
  match s with
  | EmptyString => EmptyString
  | String c r =>
      match skip with
      | S k => replace_go old new k r
      | O =>
          if String.prefix old s
          then new +:+ replace_go old new (String.length old - 1) r
          else String c (replace_go old new 0 r)
      end
  end.

(** [s.replace("", new)]: [new] before every character and at the end. *)
Fixpoint replace_empty (new s : string) : string :=
  match s with
  | EmptyString => new
  | String c r => new +:+ String c (replace_empty new r)
  end.

Definition replace (old new s : string) : string :=
  match old with
  | EmptyString => replace_empty new s
  | _ => replace_go old new 0 s
  end.

(** [s.split(sep)] for a non-empty [sep] (Python raises [ValueError] on an
    empty separator; the program only splits on ["-"]).  The result is never
    empty: its head is the piece being read. *)
Fixpoint split_go (sep : string) (skip : nat) (s : string) : list string :=
  match s with
  | EmptyString => [EmptyString]
  | String c r =>
      match skip with
      | S k => split_go sep k r
      | O =>
          if String.prefix sep s
          then EmptyString :: split_go sep (String.length sep - 1) r
          else
            match split_go sep 0 r with
            | p :: ps => String c p :: ps
            | [] => [String c EmptyString]
            end
      end
  end.

Definition split (sep s : string) : list string := split_go sep 0 s.

(** Whitespace that [int()] strips: TAB, LF, VT, FF, CR, FS, GS, RS, US,
    SPACE, NEL (U+0085) and NBSP (U+00A0). *)
Definition is_space (c : ascii) : bool :=
  let n := code c in
  (((9 <=? n) && (n <=? 13)) || ((28 <=? n) && (n <=? 32))
   || (n =? 133) || (n =? 160))%nat.

Definition digit_of (c : ascii) : option Z :=
  let n := code c in
  if ((48 <=? n) && (n <=? 57))%nat then Some (Z.of_nat (n - 48)) else None.

Fixpoint all_chars (P : ascii -> bool) (s : string) : bool :=
  match s with
  | EmptyString => true
  | String c r => P c && all_chars P r
  end.

Fixpoint lstrip (s : string) : string :=
  match s with
  | EmptyString => EmptyString
  | String c r => if is_space c then lstrip r else s
  end.

(** The digits of a base-10 literal: decimal digits, single underscores
    allowed between two digits, then optional trailing whitespace.
    [prev] tells whether the previous character was a digit. *)
Fixpoint int_digits (acc : Z) (prev : bool) (s : string) : option Z :=
  match s with
  | EmptyString => if prev then Some acc else None
  | String c r =>
      match digit_of c with
      | Some d => int_digits (10 * acc + d) true r
      | None =>
          if prev && Ascii.eqb c "_"%char then
            match r with
            | EmptyString => None
            | String c' _ =>
                if bool_decide (is_Some (digit_of c')) then int_digits acc false r
                else None
            end
          else if prev && is_space c && all_chars is_space r then Some acc
          else None
      end
  end.

(** [int(s)]: [None] stands for [ValueError].  Surrounding whitespace is
    stripped, one sign is allowed, and the rest must be [int_digits].  (The
    limit CPython 3.11 puts on the number of digits is not modelled.) *)
Definition py_int (s : string) : option Z :=
  match lstrip s with
  | String "+" r => int_digits 0 false r
  | String "-" r => Z.opp <$> int_digits 0 false r
  | r => int_digits 0 false r
  end.

(** [str(i)] for a natural number, as the f-string [f"{i}"] formats it. *)
Definition str_of_nat (i : nat) : string :=
  NilEmpty.string_of_uint (Nat.to_uint i).

End PyStr.

Import PyStr.

(** The slug of a category label.  The source inlines this expression at
    each use ([get_projects], [get_projects_by_category], [get_project]):
    [category['category'].lower().replace(' & ', '-').replace(' ', '-')]. *)
Definition slugify (label : string) : string :=
  replace " " "-" (replace " & " "-" (lower label)).

(** [s.endswith(suffix)] *)
Definition endswith (suffix s : string) : bool :=
  String.prefix (String.rev suffix) (String.rev s).

(** [p in s] for two strings: [p] occurs in [s]. *)
Fixpoint occurs_in (p s : string) : bool :=
  String.prefix p s
  || match s with
     | EmptyString => false
     | String _ r => occurs_in p r
     end.

(** [os.path.join(a, b)] on a POSIX system. *)
Definition path_join (a b : string) : string :=
  if String.prefix "/" b then b
  else if String.eqb a "" || endswith "/" a then a +:+ b
  else a +:+ "/" +:+ b.

(** ** Python objects and the heap *)

Abbreviation addr := nat (only parsing).

Inductive pyval : Type :=
  | VNone
  | VBool (b : bool)
  | VInt (z : Z)
  | VStr (s : string)
  | VList (l : list pyval)
  | VDict (a : addr).

(** A dictionary keeps its keys in insertion order; keys are strings, each
    at most once. *)
Abbreviation pydict := (list (string * pyval)) (only parsing).

Abbreviation heap := (list (list (string * pyval))) (only parsing).

Fixpoint dict_lookup (k : string) (d : pydict) : option pyval :=
  match d with
  | [] => None
  | (k', v) :: r => if String.eqb k' k then Some v else dict_lookup k r
  end.

(** [d[k] = v] on the fields of a dictionary: an existing key keeps its
    place, a new key goes last. *)
Fixpoint dict_set (k : string) (v : pyval) (d : pydict) : pydict :=
  match d with
  | [] => [(k, v)]
  | (k', v') :: r =>
      if String.eqb k' k then (k', v) :: r else (k', v') :: dict_set k v r
  end.

Inductive exn : Type :=
  | KeyError
  | TypeError
  | AttributeError
  | ValueError
  | OSError
  | BadAddress.
(* [BadAddress] is not a Python exception: it is the model's answer to an
   address outside the heap, which no Python object graph contains. *)

Inductive result (A : Type) : Type :=
  | Ok (a : A) (h : heap)
  | Raise (e : exn).
Arguments Ok {A} a h.
Arguments Raise {A} e.

Definition M (A : Type) : Type := heap -> result A.

Definition ret {A} (a : A) : M A := fun h => Ok a h.

Definition raise {A} (e : exn) : M A := fun _ => Raise e.

Definition bind {A B} (m : M A) (f : A -> M B) : M B :=
  fun h => match m h with
           | Ok a h' => f a h'
           | Raise e => Raise e
           end.

Notation "'let*' x ':=' m 'in' k" := (bind m (fun x => k))
  (at level 10, x name, m at level 100, k at level 200).

Notation "m ';;;' k" := (bind m (fun _ => k))
  (at level 100, k at level 200, right associativity).

(** A dictionary display [{...}]: a new object at the next free address. *)
Definition alloc (d : pydict) : M pyval :=
  fun h => Ok (VDict (length h)) (h ++ [d]).

Definition deref (a : addr) : M pydict :=
  fun h => match h !! a with
           | Some d => Ok d h
           | None => Raise BadAddress
           end.

Definition store (a : addr) (d : pydict) : M unit :=
  fun h => match h !! a with
           | Some _ => Ok tt (<[a := d]> h)
           | None => Raise BadAddress
           end.

(** [o[k]] for a string key [k]. *)
Definition getitem (o : pyval) (k : string) : M pyval :=
  match o with
  | VDict a =>
      let* d := deref a in
      match dict_lookup k d with
      | Some v => ret v
      | None => raise KeyError
      end
  | _ => raise TypeError
  end.

(** [o.get(k, dflt)] *)
Definition get_method (o : pyval) (k : string) (dflt : pyval) : M pyval :=
  match o with
  | VDict a =>
      let* d := deref a in
      ret (default dflt (dict_lookup k d))
  | _ => raise AttributeError
  end.

(** [o[k] = v] for a string key [k]. *)
Definition setitem (o : pyval) (k : string) (v : pyval) : M unit :=
  match o with
  | VDict a =>
      let* d := deref a in
      store a (dict_set k v d)
  | _ => raise TypeError
  end.

Definition is_str (k : string) (v : pyval) : bool :=
  match v with
  | VStr s => String.eqb s k
  | _ => false
  end.

(** [k in o] for a string [k]. *)
Definition contains (k : string) (o : pyval) : M bool :=
  match o with
  | VDict a =>
      let* d := deref a in
      ret (bool_decide (is_Some (dict_lookup k d)))
  | VList l => ret (existsb (is_str k) l)
  | VStr s => ret (occurs_in k s)
  | _ => raise TypeError
  end.

(** [len(o)] *)
Definition len (o : pyval) : M nat :=
  match o with
  | VList l => ret (length l)
  | VStr s => ret (String.length s)
  | VDict a => let* d := deref a in ret (length d)
  | _ => raise TypeError
  end.

Fixpoint chars (s : string) : list pyval :=
  match s with
  | EmptyString => []
  | String c r => VStr (String c EmptyString) :: chars r
  end.

(** The values a [for] loop over [o] visits.  The program never changes
    the length of what it iterates over, so the sequence is fixed when the
    loop starts. *)
Definition iter (o : pyval) : M (list pyval) :=
  match o with
  | VList l => ret l
  | VStr s => ret (chars s)
  | VDict a => let* d := deref a in ret (map (fun kv => VStr (fst kv)) d)
  | _ => raise TypeError
  end.

(** [o[i]] for an integer [i] with [0 <= i < len(o)]. *)
Definition index (o : pyval) (i : nat) : M pyval :=
  match o with
  | VList l =>
      match l !! i with
      | Some v => ret v
      | None => raise KeyError
      end
  | VStr s =>
      match chars s !! i with
      | Some v => ret v
      | None => raise KeyError
      end
  | VDict _ => raise KeyError
  | _ => raise TypeError
  end.

(** [o.lower().replace(' & ', '-').replace(' ', '-')]: only a string has
    the method [lower]. *)
Definition slug_of (o : pyval) : M string :=
  match o with
  | VStr s => ret (slugify s)
  | _ => raise AttributeError
  end.

(** ** JSON documents, to read a response body off the heap *)

Inductive json : Type :=
  | JNull
  | JBool (b : bool)
  | JInt (z : Z)
  | JStr (s : string)
  | JList (l : list json)
  | JObj (fields : list (string * json)).

(** The JSON document of [v].  Each dictionary entered costs one unit of
    [fuel]; a chain of more dictionaries than the heap holds repeats one, so
    [None] with that much fuel means a reference cycle (or a bad address). *)
Fixpoint dump (fuel : nat) (h : heap) (v : pyval) {struct fuel} : option json :=
  let fix go (v : pyval) : option json :=
    match v with
    | VNone => Some JNull
    | VBool b => Some (JBool b)
    | VInt z => Some (JInt z)
    | VStr s => Some (JStr s)
    | VList l => JList <$> mapM go l
    | VDict a =>
        match fuel with
        | O => None
        | S f =>
            match h !! a with
            | Some d =>
                JObj <$> mapM (fun kv => pair (fst kv) <$> dump f h (snd kv)) d
            | None => None
            end
        end
    end
  in go v.

Definition to_json (h : heap) (v : pyval) : option json :=
  dump (S (length h)) h v.

(** ** The world outside the program *)

Inductive io (A : Type) : Type :=
  | Done (a : A)
  | Failed (e : exn).
Arguments Done {A} a.
Arguments Failed {A} e.

(** The file system as the program sees it: [app.root_path], [os.listdir]
    and reading a text file ([open] then [read]). *)
Record world : Type := {
  root_path : string;
  listdir : string -> io (list string);
  read_text : string -> io string
}.

Definition lift_io {A} (r : io A) : M A :=
  match r with
  | Done a => ret a
  | Failed e => raise e
  end.

Record response : Type := { status : nat; body : pyval }.

(** [jsonify(v)] builds the response whose body is the JSON text of [v];
    the model keeps the object (read in the heap the handler ends with)
    instead of its text. *)
Definition jsonify (v : pyval) : M pyval := ret v.

(** [return body] and [return body, code] of a Flask view. *)
Definition respond (code : nat) (v : pyval) : M response :=
  ret {| status := code; body := v |}.

Definition default_industry_applications : list (string * string) :=
  [ ("Financial Services",
     "Enhances regulatory compliance while enabling innovation");
    ("Technology Consulting",
     "Demonstrates expertise in complex system integration");
    ("Digital Transformation",
     "Shows ability to reimagine processes with technology") ].

Definition default_capabilities : list string :=
  [ "Strategic vision and planning";
    "Technical implementation expertise";
    "Cross-functional team leadership";
    "Innovation and creative problem-solving" ].

(** The literal [relevance_map] of [get_industry_project_relevance]: key,
    [relevant_projects], [highlight_projects]. *)
Definition relevance_table : list (string * (list string * list string)) :=
  [ ("financial-services",
     (["ai-technology-innovation-0"; "ai-technology-innovation-1";
       "business-transformation-innovation-2"],
      ["ai-technology-innovation-0"]));
    ("tech-consulting",
     (["ai-technology-innovation-1"; "business-transformation-innovation-0";
       "business-transformation-innovation-2"],
      ["business-transformation-innovation-2"]));
    ("ai-implementation",
     (["ai-technology-innovation-0"; "ai-technology-innovation-1";
       "ai-technology-innovation-2"],
      ["ai-technology-innovation-1"]));
    ("digital-transformation",
     (["strategic-vision-systems-thinking-1";
       "business-transformation-innovation-0";
       "business-transformation-innovation-1"],
      ["business-transformation-innovation-0"]));
    ("startup-innovation",
     (["business-transformation-innovation-1";
       "creative-conceptual-development-0";
       "creative-conceptual-development-1"],
      ["creative-conceptual-development-1"]));
    ("custom",
     (["ai-technology-innovation-0"; "strategic-vision-systems-thinking-0";
       "business-transformation-innovation-0";
       "creative-conceptual-development-0"],
      ["strategic-vision-systems-thinking-0"; "ai-technology-innovation-0"])) ].

Definition relevance_entry (e : list string * list string) : pydict :=
  [ ("relevant_projects", VList (map VStr (fst e)));
    ("highlight_projects", VList (map VStr (snd e))) ].

(** Evaluating a dictionary display whose values are dictionary displays:
    the inner ones are built first, in order. *)
Fixpoint alloc_entries (tbl : list (string * (list string * list string)))
  : M pydict :=
  match tbl with
  | [] => ret []
  | (k, e) :: rest =>
      let* v := alloc (relevance_entry e) in
      let* r := alloc_entries rest in
      ret ((k, v) :: r)
  end.

Fixpoint alloc_all (ds : list pydict) : M (list pyval) :=
  match ds with
  | [] => ret []
  | d :: rest =>
      let* v := alloc d in
      let* r := alloc_all rest in
      ret (v :: r)
  end.

(** ** The handlers of app.py *)

Section App.

Variable w : world.

(** [yaml.safe_load] on the text of a file: the object it builds, in the
    heap extended with the dictionaries of the document, or [None] when it
    raises. *)
Variable safe_load : string -> heap -> option (pyval * heap).

(** [markdown.markdown] *)
Variable markdown : string -> string.

(** The [try] covers opening, reading and parsing; any exception yields a
    new empty dictionary.  (The [print] of the cause is not modelled.) *)
Definition load_yaml_data (file_path : string) : M pyval :=
  match read_text w file_path with
  | Done text =>
      fun h => match safe_load text h with
               | Some (v, h') => Ok v h'
               | None => alloc [] h
               end
  | Failed _ => alloc []
  end.

Fixpoint load_cv_files (cv_dir : string) (cv_data : pyval)
    (cv_files : list string) : M unit :=
  match cv_files with
  | [] => ret tt
  | file :: rest =>
      let* content := lift_io (read_text w (path_join cv_dir file)) in
      setitem cv_data file (VStr (markdown content));;;
      load_cv_files cv_dir cv_data rest
  end.

Definition cv_directory : string :=
  path_join (path_join (root_path w) "data") "cv".

Definition load_cv_data : M pyval :=
  let cv_dir := cv_directory in
  let* names := lift_io (listdir w cv_dir) in
  let cv_files := List.filter (endswith ".md") names in
  let* cv_data := alloc [] in
  load_cv_files cv_dir cv_data cv_files;;;
  ret cv_data.

Definition project_file : string :=
  path_join (path_join (root_path w) "data") "projects.yaml".

Definition load_project_data : M pyval := load_yaml_data project_file.

Definition get_cv : M response :=
  let* cv_data := load_cv_data in
  let* b := jsonify cv_data in
  respond 200 b.

(** The loop of [get_projects]; [categories] is the list built so far. *)
Fixpoint get_projects_loop (cats categories : list pyval) : M (list pyval) :=
  match cats with
  | [] => ret categories
  | category :: rest =>
      let* label := getitem category "category" in
      let* id := slug_of label in
      let* name := getitem category "category" in
      let* projects := get_method category "projects" (VList []) in
      let* n := len projects in
      let* entry := alloc [ ("id", VStr id); ("name", name);
                            ("projectCount", VInt (Z.of_nat n)) ] in
      get_projects_loop rest (categories ++ [entry])
  end.

Definition get_projects : M response :=
  let* projects_data := load_project_data in
  let* seq := get_method projects_data "projects" (VList []) in
  let* cats := iter seq in
  let* categories := get_projects_loop cats [] in
  let* d := alloc [("categories", VList categories)] in
  let* b := jsonify d in
  respond 200 b.

(** [for i, project in enumerate(projects): project['id'] = f"{category_id}-{i}"] *)
Fixpoint assign_ids (category_id : string) (i : nat) (items : list pyval)
  : M unit :=
  match items with
  | [] => ret tt
  | project :: rest =>
      setitem project "id" (VStr (category_id +:+ "-" +:+ str_of_nat i));;;
      assign_ids category_id (S i) rest
  end.

(** A loop that may [return]: [Some r] when it returned [r], [None] when it
    ran to its end. *)
Fixpoint get_projects_by_category_loop (category_id : string)
    (cats : list pyval) : M (option response) :=
  match cats with
  | [] => ret None
  | category :: rest =>
      let* label := getitem category "category" in
      let* category_normalized := slug_of label in
      if String.eqb category_normalized category_id then
        let* projects := get_method category "projects" (VList []) in
        let* items := iter projects in
        assign_ids category_id 0 items;;;
        let* name := getitem category "category" in
        let* d := alloc [("category", name); ("projects", projects)] in
        let* b := jsonify d in
        let* r := respond 200 b in
        ret (Some r)
      else get_projects_by_category_loop category_id rest
  end.

Definition error_body (msg : string) : pydict := [("error", VStr msg)].

Definition get_projects_by_category (category_id : string) : M response :=
  let* projects_data := load_project_data in
  let* seq := get_method projects_data "projects" (VList []) in
  let* cats := iter seq in
  let* r := get_projects_by_category_loop category_id cats in
  match r with
  | Some resp => ret resp
  | None =>
      let* d := alloc (error_body "Category not found") in
      let* b := jsonify d in
      respond 404 b
  end.

Definition industry_application (e : string * string) : pydict :=
  [("industry", VStr (fst e)); ("application", VStr (snd e))].

(** The two [if ... not in project] blocks of [get_project]. *)
Definition inject_defaults (project : pyval) : M unit :=
  let* has_ia := contains "industry_applications" project in
  (if has_ia then ret tt
   else
     let* l := alloc_all (map industry_application
                              default_industry_applications) in
     setitem project "industry_applications" (VList l));;;
  let* has_cap := contains "capabilities" project in
  if has_cap then ret tt
  else setitem project "capabilities" (VList (map VStr default_capabilities)).

Fixpoint get_project_loop (project_id category_id : string)
    (project_index : Z) (cats : list pyval) : M (option response) :=
  match cats with
  | [] => ret None
  | category :: rest =>
      let* label := getitem category "category" in
      let* category_normalized := slug_of label in
      if String.eqb category_normalized category_id then
        let* projects := get_method category "projects" (VList []) in
        (* [0 <= project_index < len(projects)]: [len] is only evaluated
           when the first comparison holds *)
        let* in_range :=
          (if (0 <=? project_index)%Z then
             let* n := len projects in
             ret (project_index <? Z.of_nat n)%Z
           else ret false) in
        if in_range then
          let* project := index projects (Z.to_nat project_index) in
          setitem project "id" (VStr project_id);;;
          inject_defaults project;;;
          let* b := jsonify project in
          let* r := respond 200 b in
          ret (Some r)
        else get_project_loop project_id category_id project_index rest
      else get_project_loop project_id category_id project_index rest
  end.

Definition get_project (project_id : string) : M response :=
  let* projects_data := load_project_data in
  let parts := split "-" project_id in
  match parts with
  | category_id :: index_part :: _ =>
      match py_int index_part with
      | None =>
          let* d := alloc (error_body "Invalid project index") in
          let* b := jsonify d in
          respond 400 b
      | Some project_index =>
          let* seq := get_method projects_data "projects" (VList []) in
          let* cats := iter seq in
          let* r := get_project_loop project_id category_id project_index
                      cats in
          match r with
          | Some resp => ret resp
          | None =>
              let* d := alloc (error_body "Project not found") in
              let* b := jsonify d in
              respond 404 b
          end
      end
  | _ =>
      (* [len(parts) < 2] *)
      let* d := alloc (error_body "Invalid project ID") in
      let* b := jsonify d in
      respond 400 b
  end.

Definition get_industry_project_relevance (industry_id : string)
  : M response :=
  let* entries := alloc_entries relevance_table in
  let* relevance_map := alloc entries in
  let* known := contains industry_id relevance_map in
  if known then
    let* e := getitem relevance_map industry_id in
    let* b := jsonify e in
    respond 200 b
  else
    let* e := getitem relevance_map "custom" in
    let* b := jsonify e in
    respond 200 b.

Definition industry_directory : string :=
  path_join (path_join (root_path w) "data") "industries".

(** The loop of [load_industry_data]: the document is loaded first, then
    stored under the file name without its [.yaml]. *)
Fixpoint load_industry_files (industry_dir : string) (industries : pyval)
    (industry_files : list string) : M unit :=
  match industry_files with
  | [] => ret tt
  | file :: rest =>
      let industry_id := replace ".yaml" "" file in
      let* doc := load_yaml_data (path_join industry_dir file) in
      setitem industries industry_id doc;;;
      load_industry_files industry_dir industries rest
  end.

Definition load_industry_data : M pyval :=
  let industry_dir := industry_directory in
  let* names := lift_io (listdir w industry_dir) in
  let industry_files := List.filter (endswith ".yaml") names in
  let* industries := alloc [] in
  load_industry_files industry_dir industries industry_files;;;
  ret industries.

Definition get_industries : M response :=
  let* industries := load_industry_data in
  let* b := jsonify industries in
  respond 200 b.

Definition get_industry (industry_id : string) : M response :=
  let* industries := load_industry_data in
  let* known := contains industry_id industries in
  if known then
    let* e := getitem industries industry_id in
    let* b := jsonify e in
    respond 200 b
  else
    let* d := alloc (error_body "Industry not found") in
    let* b := jsonify d in
    respond 404 b.

End App.

(** ** The document the handlers expect (data model of the specification) *)

(** A category as the specification sees it: its display name and the
    addresses of its project records, in load order. *)
Definition category_view : Type := string * list addr.

(** The object [v] of heap [h] is a category: a dictionary with the display
    name under ['category'] and, under ['projects'] (absent for no
    project), the list of its project records, each a dictionary of [h]. *)
Definition is_category (h : heap) (v : pyval) (c : category_view) : Prop :=
  exists a d,
    v = VDict a /\ h !! a = Some d
    /\ dict_lookup "category" d = Some (VStr (fst c))
    /\ default (VList []) (dict_lookup "projects" d) = VList (map VDict (snd c))
    /\ Forall (fun p => is_Some (h !! p)) (snd c).

(** The object [root] of heap [h] is a projects document with the
    categories [view]: a dictionary whose key ['projects'] (absent for no
    category) holds the list of the categories. *)
Definition is_document (h : heap) (root : pyval) (view : list category_view)
  : Prop :=
  exists r d cats,
    root = VDict r /\ h !! r = Some d
    /\ default (VList []) (dict_lookup "projects" d) = VList cats
    /\ Forall2 (is_category h) cats view.


(** The project that the slug [slug] and the index [z] designate: position
    [z] of the first category with that slug that has such a position. *)
Fixpoint resolve (slug : string) (z : Z) (view : list category_view)
  : option addr :=
  match view with
  | [] => None
  | c :: rest =>
      if String.eqb (slugify (fst c)) slug
         && (0 <=? z)%Z && (z <? Z.of_nat (length (snd c)))%Z
      then snd c !! Z.to_nat z
      else resolve slug z rest
  end.

Fixpoint table_lookup {A} (k : string) (tbl : list (string * A)) : option A :=
  match tbl with
  | [] => None
  | (k', v) :: rest => if String.eqb k' k then Some v else table_lookup k rest
  end.

(** The handler answered with status [code] and the JSON object whose
    fields are [d]. *)
Definition answers (r : result response) (code : nat) (d : pydict) : Prop :=
  exists a h, r = Ok {| status := code; body := VDict a |} h /\ h !! a = Some d.

(** The status and the JSON document of a response, [None] when the handler
    raised or the body has no JSON document. *)
Definition reply (r : result response) : option (nat * json) :=
  match r with
  | Ok resp h => pair (status resp) <$> to_json h (body resp)
  | Raise _ => None
  end.

(** ** Definitions used in the statements and proofs *)

(** Characters that [lower] leaves alone. *)
Definition is_lowered (c : ascii) : bool := Ascii.eqb (lower_char c) c.

Definition not_space (c : ascii) : bool := negb (Ascii.eqb c " ").

Definition not_dash (c : ascii) : bool := negb (Ascii.eqb c "-").


(** What [get_project] does to the project it found. *)
Definition found_project (pid : string) (a : addr) : M (option response) :=
  setitem (VDict a) "id" (VStr pid);;;
  inject_defaults (VDict a);;;
  let* b := jsonify (VDict a) in
  let* r := respond 200 b in
  ret (Some r).

(** The record [d] after [inject_defaults]; [n] is the first free address
    before the call. *)
Definition with_defaults (n : nat) (d : pydict) : pydict :=
  let d' :=
    if bool_decide (is_Some (dict_lookup "industry_applications" d)) then d
    else dict_set "industry_applications"
           (VList [VDict n; VDict (S n); VDict (S (S n))]) d in
  if bool_decide (is_Some (dict_lookup "capabilities" d')) then d'
  else dict_set "capabilities" (VList (map VStr default_capabilities)) d'.

(** The record of the found project when [get_project] returns it: [n] is
    the first free address before the call, [d] the record as loaded. *)
Definition served_record (pid : string) (n : nat) (d : pydict) : pydict :=
  with_defaults n (dict_set "id" (VStr pid) d).

(** The search that [get_project_loop] makes, without what it does to the
    project it finds. *)
Fixpoint search (slug : string) (z : Z) (cats : list pyval)
  : M (option pyval) :=
  match cats with
  | [] => ret None
  | category :: rest =>
      let* label := getitem category "category" in
      let* category_normalized := slug_of label in
      if String.eqb category_normalized slug then
        let* projects := get_method category "projects" (VList []) in
        let* in_range :=
          (if (0 <=? z)%Z then
             let* n := len projects in
             ret (z <? Z.of_nat n)%Z
           else ret false) in
        if in_range then
          let* project := index projects (Z.to_nat z) in
          ret (Some project)
        else search slug z rest
      else search slug z rest
  end.

Definition serve (pid : string) (found : option pyval) : M (option response) :=
  match found with
  | Some project =>
      setitem project "id" (VStr pid);;;
      inject_defaults project;;;
      let* b := jsonify project in
      let* r := respond 200 b in
      ret (Some r)
  | None => ret None
  end.

(** Reading does not change the heap. *)
Definition read_only {A} (m : M A) : Prop :=
  forall h a h', m h = Ok a h' -> h' = h.

(** The keys of [relevance_map] paired with the addresses of its entries,
    the first of them at address [n]. *)
Fixpoint entries_at (n : nat) (tbl : list (string * (list string * list string)))
  : list (string * pyval) :=
  match tbl with
  | [] => []
  | (k, _) :: rest => (k, VDict n) :: entries_at (S n) rest
  end.

(** The entry of a category in the answer of [get_projects]. *)
Definition category_entry (c : category_view) : list (string * pyval) :=
  [ ("id", VStr (slugify c.1)); ("name", VStr c.1);
    ("projectCount", VInt (Z.of_nat (length c.2))) ].

(** The dictionaries [inject_defaults] creates for the record [d]: the
    three default industry applications when [d] has none. *)
Definition fresh_applications (d : list (string * pyval))
  : list (list (string * pyval)) :=
  if bool_decide (is_Some (dict_lookup "industry_applications" d)) then []
  else map industry_application default_industry_applications.


(** The industry id of a file of the industries directory. *)
Definition industry_id_of (file : string) : string := replace ".yaml" "" file.


Definition not_dot (c : ascii) : bool := negb (Ascii.eqb c ".").

(** The id [pid] does not pass the second check of [get_project]: it has
    two parts or more and the second is no integer. *)
Definition index_rejected (pid : string) : bool :=
  match split "-" pid with
  | _ :: p1 :: _ =>
      match py_int p1 with
      | None => true
      | Some _ => false
      end
  | _ => false
  end.

(** The entry that a CV file gets in the mapping of [load_cv_data]. *)
Definition cv_entry (w : world) (markdown : string -> string)
    (file : string) : option (string * pyval) :=
  match read_text w (path_join (cv_directory w) file) with
  | Done content => Some (file, VStr (markdown content))
  | Failed _ => None
  end.

(** ** Sample worlds *)

Module Sample.

(** A parser that knows three files by their text.  Each document is laid
    out from the first free address [n].
    - ["ai"]: one category "AI & Technology Innovation" with two projects;
    - ["lab"]: "Research" with two projects (the second has capabilities),
      then "Data Science" with one project and "data science" with two;
    - ["alias"]: "Research" listing one record twice (a YAML alias).
    Any other text is rejected. *)
Definition safe_load (text : string) (h : heap) : option (pyval * heap) :=
  let n := length h in
  if String.eqb text "ai" then
    Some (VDict (n + 3),
          h ++ [ [("title", VStr "Model Deployment")];
                 [("title", VStr "Knowledge Graph")];
                 [("category", VStr "AI & Technology Innovation");
                  ("projects", VList [VDict n; VDict (n + 1)])];
                 [("projects", VList [VDict (n + 2)])] ])
  else if String.eqb text "lab" then
    Some (VDict (n + 8),
          h ++ [ [("title", VStr "Survey")];
                 [("title", VStr "Prototype");
                  ("capabilities", VList [VStr "Graph modelling"])];
                 [("category", VStr "Research");
                  ("projects", VList [VDict n; VDict (n + 1)])];
                 [("title", VStr "Forecast")];
                 [("category", VStr "Data Science");
                  ("projects", VList [VDict (n + 3)])];
                 [("title", VStr "Churn")];
                 [("title", VStr "Pricing")];
                 [("category", VStr "data science");
                  ("projects", VList [VDict (n + 5); VDict (n + 6)])];
                 [("projects",
                   VList [VDict (n + 2); VDict (n + 4); VDict (n + 7)])] ])
  else if String.eqb text "alias" then
    Some (VDict (n + 2),
          h ++ [ [("title", VStr "Survey")];
                 [("category", VStr "Research");
                  ("projects", VList [VDict n; VDict n])];
                 [("projects", VList [VDict (n + 1)])] ])
  else None.

Definition markdown (s : string) : string := "<p>" +:+ s +:+ "</p>".

(** A world whose projects file has the text [text]; the CV directory
    holds [cv.md] and [notes.txt]. *)
Definition with_projects (text : string) : world :=
  {| root_path := "/srv/app";
     listdir := fun d =>
       if String.eqb d "/srv/app/data/cv" then Done ["cv.md"; "notes.txt"]
       else Failed OSError;
     read_text := fun f =>
       if String.eqb f "/srv/app/data/projects.yaml" then Done text
       else if String.eqb f "/srv/app/data/cv/cv.md" then Done "Curriculum"
       else Failed OSError |}.

(** A world with no file at all. *)
Definition bare : world :=
  {| root_path := "/srv/app";
     listdir := fun _ => Failed OSError;
     read_text := fun _ => Failed OSError |}.

(** The heap after loading ["lab"], or ["alias"], into the empty heap. *)
Definition lab_heap : heap := default [] (snd <$> safe_load "lab" []).


Definition lab_view : list category_view :=
  [("Research", [0; 1]); ("Data Science", [3]); ("data science", [5; 6])].

End Sample.

(** A site with a CV directory, an industries directory and a projects
    file, and a parser for its files. *)
Module Site.

(** The parser knows four texts: ["blank"] is an empty file (it parses to
    [None]); ["nameless"] is a projects document whose second category has
    no 'category' key; ["twins"] is a projects document with the categories
    "Lab" (one project) and "lab" (two projects); ["finance"] is an
    industry document.  Any other text is rejected. *)
Definition safe_load (text : string) (h : heap) : option (pyval * heap) :=
  let n := length h in
  if String.eqb text "blank" then Some (VNone, h)
  else if String.eqb text "nameless" then
    Some (VDict (n + 3),
          h ++ [ [("title", VStr "Survey")];
                 [("category", VStr "Research");
                  ("projects", VList [VDict n])];
                 [("projects", VList [])];
                 [("projects", VList [VDict (n + 1); VDict (n + 2)])] ])
  else if String.eqb text "twins" then
    Some (VDict (n + 5),
          h ++ [ [("title", VStr "Bench")];
                 [("category", VStr "Lab"); ("projects", VList [VDict n])];
                 [("title", VStr "Rig")];
                 [("title", VStr "Probe")];
                 [("category", VStr "lab");
                  ("projects", VList [VDict (n + 2); VDict (n + 3)])];
                 [("projects", VList [VDict (n + 1); VDict (n + 4)])] ])
  else if String.eqb text "finance" then
    Some (VDict n, h ++ [ [("name", VStr "Financial Services")] ])
  else None.

Definition markdown (s : string) : string := "<p>" +:+ s +:+ "</p>".

(** The projects file has the text [text].  The CV directory holds two
    Markdown files and a text file; the industries directory holds a good
    YAML file, one that does not parse, one that cannot be read, and a
    text file. *)
Definition site (text : string) : world :=
  {| root_path := "/srv/app";
     listdir := fun d =>
       if String.eqb d "/srv/app/data/cv"
       then Done ["cv.md"; "notes.txt"; "talks.md"]
       else if String.eqb d "/srv/app/data/industries"
       then Done ["finance.yaml"; "broken.yaml"; "locked.yaml"; "readme.txt"]
       else Failed OSError;
     read_text := fun f =>
       if String.eqb f "/srv/app/data/projects.yaml" then Done text
       else if String.eqb f "/srv/app/data/cv/cv.md" then Done "Curriculum"
       else if String.eqb f "/srv/app/data/cv/talks.md" then Done "Talks"
       else if String.eqb f "/srv/app/data/industries/finance.yaml"
       then Done "finance"
       else if String.eqb f "/srv/app/data/industries/broken.yaml"
       then Done "]["
       else Failed OSError |}.

Definition nameless_heap : heap := default [] (snd <$> safe_load "nameless" []).


End Site.

(** * Properties *)

(** ** Strings *)

Example slugify_plain : slugify "Creative Work" = "creative-work".
Proof. reflexivity. Qed.

Example replace_overlap : replace " & " "-" "a & & b" = "a-& b".
Proof. reflexivity. Qed.

Example split_three : split "-" "cat-1-extra" = ["cat"; "1"; "extra"].
Proof. reflexivity. Qed.

Example split_none : split "-" "cat" = ["cat"].
Proof. reflexivity. Qed.

Example split_empty_piece : split "-" "cat--5" = ["cat"; ""; "5"].
Proof. reflexivity. Qed.

Example py_int_examples :
  py_int "12" = Some 12%Z /\ py_int " +1_0 " = Some 10%Z /\ py_int "" = None
  /\ py_int "x" = None /\ py_int "1__0" = None /\ py_int "1_" = None
  /\ py_int "+ 1" = None /\ py_int "technology" = None.
Proof. repeat split; reflexivity. Qed.

Example str_of_nat_examples : str_of_nat 0 = "0" /\ str_of_nat 12 = "12".
Proof. split; reflexivity. Qed.

Ltac each_char c := destruct c as [[] [] [] [] [] [] [] []].

Lemma lower_char_idem c : lower_char (lower_char c) = lower_char c.
Proof. each_char c; reflexivity. Qed.

Lemma all_chars_app P s t :
  all_chars P (s +:+ t) = all_chars P s && all_chars P t.
Proof.
  induction s as [|c s IH]; simpl; [reflexivity|].
  rewrite IH. apply andb_assoc.
Qed.

Lemma all_chars_lower s : all_chars is_lowered (lower s) = true.
Proof.
  induction s as [|c s IH]; simpl; [reflexivity|].
  rewrite IH, andb_true_r. unfold is_lowered.
  rewrite lower_char_idem. apply Ascii.eqb_refl.
Qed.

Lemma lower_fixed s : all_chars is_lowered s = true -> lower s = s.
Proof.
  induction s as [|c s IH]; simpl; [reflexivity|].
  intros [Hc Hs]%andb_true_iff. rewrite (IH Hs).
  apply Ascii.eqb_eq in Hc. by rewrite Hc.
Qed.

Lemma all_chars_replace_go P old new s k :
  all_chars P new = true -> all_chars P s = true ->
  all_chars P (replace_go old new k s) = true.
Proof.
  intros Hnew. revert k.
  induction s as [|c s IH]; intros k Hs; [reflexivity|].
  cbn [all_chars] in Hs. apply andb_true_iff in Hs as [Hc Hs].
  cbn [replace_go].
  destruct k as [|k]; [|by apply IH].
  destruct (String.prefix old (String c s)).
  - rewrite all_chars_app, Hnew. by apply IH.
  - cbn [all_chars]. rewrite Hc. by apply IH.
Qed.

Lemma prefix_head_ne a old c s :
  a <> c -> String.prefix (String a old) (String c s) = false.
Proof. intros Hne. simpl. by destruct (ascii_dec a c). Qed.

Lemma prefix_head_eq a s : String.prefix (String a "") (String a s) = true.
Proof. simpl. destruct (ascii_dec a a); [by destruct s | done]. Qed.

(** Replacing the spaces leaves none. *)
Lemma replace_space_no_space s :
  all_chars not_space (replace_go " " "-" 0 s) = true.
Proof.
  induction s as [|c s IH]; [reflexivity|].
  cbn [replace_go String.length Nat.sub].
  destruct (String.prefix " " (String c s)) eqn:Hp.
  - simpl. exact IH.
  - cbn [all_chars]. rewrite IH, andb_true_r.
    unfold not_space. destruct (Ascii.eqb_spec c " ") as [->|]; [|done].
    by rewrite prefix_head_eq in Hp.
Qed.

(** A pattern that starts with a space occurs in no string without one. *)
Lemma replace_go_no_space old new s :
  all_chars not_space s = true ->
  replace_go (String " " old) new 0 s = s.
Proof.
  induction s as [|c s IH]; [reflexivity|].
  cbn [all_chars]. intros [Hc Hs]%andb_true_iff.
  cbn [replace_go]. rewrite prefix_head_ne.
  - by rewrite (IH Hs).
  - intros <-. discriminate.
Qed.

Lemma slugify_lowered s : all_chars is_lowered (slugify s) = true.
Proof.
  unfold slugify, replace.
  apply all_chars_replace_go; [reflexivity|].
  apply all_chars_replace_go; [reflexivity|].
  apply all_chars_lower.
Qed.

Lemma slugify_no_space s : all_chars not_space (slugify s) = true.
Proof. unfold slugify, replace. apply replace_space_no_space. Qed.

(** C4: [slugify] is idempotent: the slug of a slug is that slug. *)
Theorem slugify_idempotent (x : string) : slugify (slugify x) = slugify x.
Proof.
  unfold slugify at 1.
  rewrite (lower_fixed _ (slugify_lowered x)).
  unfold replace.
  by rewrite !(replace_go_no_space _ _ _ (slugify_no_space x)).
Qed.

(** C9: the slug of "AI & Technology Innovation" is
    "ai-technology-innovation". *)
Theorem slugify_ai_technology_innovation :
  slugify "AI & Technology Innovation" = "ai-technology-innovation".
Proof. reflexivity. Qed.

(** The pieces of a split on ["-"] hold no ["-"]. *)
Lemma split_dash_pieces s :
  Forall (fun p => all_chars not_dash p = true) (split "-" s).
Proof.
  unfold split.
  induction s as [|c s IH]; [by repeat constructor|].
  cbn [split_go String.length Nat.sub].
  destruct (String.prefix "-" (String c s)) eqn:Hp.
  - constructor; [reflexivity | exact IH].
  - assert (not_dash c = true) as Hc.
    { unfold not_dash. destruct (Ascii.eqb_spec c "-") as [->|]; [|done].
      by rewrite prefix_head_eq in Hp. }
    destruct (split_go "-" 0 s) as [|p ps].
    + repeat constructor. cbn [all_chars]. by rewrite Hc.
    + apply Forall_cons in IH as [Hp1 Hps].
      constructor; [|assumption].
      cbn [all_chars]. by rewrite Hc.
Qed.

Lemma digit_of_nonneg c d : digit_of c = Some d -> (0 <= d)%Z.
Proof.
  unfold digit_of. destruct (_ && _); [|discriminate].
  intros [= <-]. lia.
Qed.

Lemma int_digits_nonneg s acc prev z :
  (0 <= acc)%Z -> int_digits acc prev s = Some z -> (0 <= z)%Z.
Proof.
  revert acc prev.
  induction s as [|c s IH]; intros acc prev Hacc; simpl.
  - destruct prev; [|discriminate]. by intros [= <-].
  - destruct (digit_of c) as [d|] eqn:Hd.
    + apply IH. apply digit_of_nonneg in Hd. lia.
    + destruct (prev && Ascii.eqb c "_").
      * destruct s as [|c' s']; [discriminate|].
        destruct (bool_decide _); [|discriminate].
        by apply IH.
      * destruct (prev && is_space c && all_chars is_space (s));
          [|discriminate].
        by intros [= <-].
Qed.

Lemma all_chars_lstrip P s :
  all_chars P s = true -> all_chars P (lstrip s) = true.
Proof.
  induction s as [|c s IH]; simpl; [done|].
  intros [Hc Hs]%andb_true_iff.
  destruct (is_space c); [by apply IH|].
  simpl. by rewrite Hc.
Qed.

(** Without a ["-"] in it, a string that [int] accepts is a non-negative
    number. *)
Lemma py_int_nonneg s z :
  all_chars not_dash s = true -> py_int s = Some z -> (0 <= z)%Z.
Proof.
  intros Hs%all_chars_lstrip. unfold py_int.
  destruct (lstrip s) as [|c r]; [discriminate|].
  cbn [all_chars] in Hs. apply andb_true_iff in Hs as [Hc _].
  each_char c; try discriminate Hc;
    by (apply int_digits_nonneg).
Qed.

(** ** Dictionaries and the monad *)

Lemma dict_lookup_set_eq k v d : dict_lookup k (dict_set k v d) = Some v.
Proof.
  induction d as [|[k' v'] d IH]; simpl.
  - by rewrite String.eqb_refl.
  - destruct (String.eqb k' k) eqn:E; simpl; by rewrite E.
Qed.

Lemma dict_lookup_set_ne k k' v d :
  k <> k' -> dict_lookup k' (dict_set k v d) = dict_lookup k' d.
Proof.
  intros Hne.
  induction d as [|[k0 v0] d IH]; simpl.
  - destruct (String.eqb_spec k k'); [done | reflexivity].
  - destruct (String.eqb_spec k0 k) as [->|]; simpl.
    + destruct (String.eqb_spec k k'); [done | reflexivity].
    + by rewrite IH.
Qed.

Lemma bind_ok {A B} (m : M A) (f : A -> M B) h a h' :
  m h = Ok a h' -> bind m f h = f a h'.
Proof. unfold bind. by intros ->. Qed.

Lemma bind_raise {A B} (m : M A) (f : A -> M B) h e :
  m h = Raise e -> bind m f h = Raise e.
Proof. unfold bind. by intros ->. Qed.

Lemma getitem_dict a k h d v :
  h !! a = Some d -> dict_lookup k d = Some v ->
  getitem (VDict a) k h = Ok v h.
Proof. intros Ha Hk. unfold getitem, bind, deref. by rewrite Ha, Hk. Qed.

Lemma get_method_dict a k dflt h d :
  h !! a = Some d ->
  get_method (VDict a) k dflt h = Ok (default dflt (dict_lookup k d)) h.
Proof. intros Ha. unfold get_method, bind, deref. by rewrite Ha. Qed.

Lemma setitem_dict a k v h d :
  h !! a = Some d ->
  setitem (VDict a) k v h = Ok tt (<[a := dict_set k v d]> h).
Proof.
  intros Ha. unfold setitem, bind, deref, store.
  rewrite Ha. simpl. by rewrite Ha.
Qed.

Lemma contains_dict a k h d :
  h !! a = Some d ->
  contains k (VDict a) h = Ok (bool_decide (is_Some (dict_lookup k d))) h.
Proof. intros Ha. unfold contains, bind, deref. by rewrite Ha. Qed.

Lemma lookup_updated (h : heap) a d d' :
  h !! a = Some d -> <[a := d']> h !! a = Some d'.
Proof. intros Ha. apply list_lookup_insert_eq. by eapply lookup_lt_Some. Qed.

Lemma alloc_all_run ds h :
  alloc_all ds h = Ok (map VDict (seq (length h) (length ds))) (h ++ ds).
Proof.
  revert h. induction ds as [|d ds IH]; intros h; simpl.
  - unfold ret. by rewrite app_nil_r.
  - unfold bind, alloc. rewrite IH. unfold ret.
    rewrite length_app. simpl. rewrite Nat.add_1_r.
    by rewrite <- app_assoc.
Qed.

(** Running a step of a computation whose first action is known. *)
Ltac mstep tac := erewrite bind_ok; [| solve [tac] ].

(** ** The loader *)

Section Properties.

Variable w : world.
Variable safe_load : string -> heap -> option (pyval * heap).
Variable markdown : string -> string.

Lemma load_project_data_total h0 :
  exists root h, load_project_data w safe_load h0 = Ok root h.
Proof.
  unfold load_project_data, load_yaml_data.
  destruct (read_text w (project_file w)) as [text|e].
  - destruct (safe_load text h0) as [[v h]|]; unfold alloc; eauto.
  - unfold alloc; eauto.
Qed.


(** ** The loops over the categories *)

Lemma is_category_inv h v c :
  is_category h v c ->
  exists a d, v = VDict a /\ h !! a = Some d
    /\ getitem v "category" h = Ok (VStr (fst c)) h
    /\ get_method v "projects" (VList []) h = Ok (VList (map VDict (snd c))) h.
Proof.
  intros (a & d & -> & Ha & Hname & Hps & _).
  exists a, d. repeat split; [done| |].
  - by eapply getitem_dict.
  - erewrite get_method_dict by done. by rewrite Hps.
Qed.

Lemma get_project_loop_none pid slug z cats view h :
  Forall2 (is_category h) cats view ->
  resolve slug z view = None ->
  get_project_loop pid slug z cats h = Ok None h.
Proof.
  induction 1 as [|v c cats view Hc _ IH]; [reflexivity|].
  cbn [resolve get_project_loop]. intros Hres.
  apply is_category_inv in Hc as (a & d & -> & Ha & Hget & Hps).
  mstep ltac:(exact Hget). unfold slug_of at 1.
  mstep ltac:(reflexivity).
  destruct (String.eqb (slugify c.1) slug); cbn [andb] in Hres; [|by apply IH].
  mstep ltac:(exact Hps).
  destruct (0 <=? z)%Z eqn:Hz; cbn [andb] in Hres.
  - unfold len at 1. rewrite length_map.
    erewrite bind_ok by (erewrite bind_ok by reflexivity; reflexivity).
    destruct (z <? Z.of_nat (length c.2))%Z eqn:Hlt; [|by apply IH].
    apply lookup_ge_None in Hres. lia.
  - mstep ltac:(reflexivity). by apply IH.
Qed.

Lemma get_project_loop_found pid slug z cats view h a :
  Forall2 (is_category h) cats view ->
  resolve slug z view = Some a ->
  get_project_loop pid slug z cats h = found_project pid a h.
Proof.
  induction 1 as [|v c cats view Hc _ IH]; [discriminate|].
  cbn [resolve get_project_loop]. intros Hres.
  apply is_category_inv in Hc as (a' & d & -> & Ha & Hget & Hps).
  mstep ltac:(exact Hget). unfold slug_of at 1.
  mstep ltac:(reflexivity).
  destruct (String.eqb (slugify c.1) slug); cbn [andb] in Hres; [|by apply IH].
  mstep ltac:(exact Hps).
  destruct (0 <=? z)%Z eqn:Hz; cbn [andb] in Hres.
  - unfold len at 1. rewrite length_map.
    erewrite bind_ok by (erewrite bind_ok by reflexivity; reflexivity).
    destruct (z <? Z.of_nat (length c.2))%Z eqn:Hlt; [|by apply IH].
    unfold index at 1. rewrite list_lookup_fmap, Hres. reflexivity.
  - mstep ltac:(reflexivity). by apply IH.
Qed.

Lemma resolve_allocated slug z cats view h a :
  Forall2 (is_category h) cats view ->
  resolve slug z view = Some a -> is_Some (h !! a).
Proof.
  induction 1 as [|v c cats view Hc _ IH]; [discriminate|].
  cbn [resolve].
  destruct (_ && _); [|done].
  destruct Hc as (? & ? & _ & _ & _ & _ & Hall).
  intros Hin%list_elem_of_lookup_2.
  by eapply Forall_forall in Hall.
Qed.

Lemma inject_defaults_run a h d :
  h !! a = Some d ->
  exists h',
    inject_defaults (VDict a) h = Ok tt h'
    /\ h' !! a = Some (with_defaults (length h) d).
Proof.
  intros Ha. unfold inject_defaults, with_defaults.
  mstep ltac:(by apply contains_dict).
  destruct (bool_decide (is_Some (dict_lookup "industry_applications" d))).
  - mstep ltac:(reflexivity). mstep ltac:(by apply contains_dict).
    destruct (bool_decide _).
    + by eexists.
    + erewrite setitem_dict by done.
      eexists; split; [reflexivity|]. by eapply lookup_updated.
  - pose proof (lookup_app_l_Some _
      (map industry_application default_industry_applications) _ _ Ha) as Ha2.
    erewrite bind_ok; cycle 1.
    { erewrite bind_ok by apply alloc_all_run. by apply setitem_dict. }
    cbn [length map seq default_industry_applications].
    eapply lookup_updated in Ha2.
    mstep ltac:(apply contains_dict; exact Ha2).
    destruct (bool_decide _).
    + eexists; split; [reflexivity | exact Ha2].
    + erewrite setitem_dict by exact Ha2.
      eexists; split; [reflexivity|]. by eapply lookup_updated.
Qed.

Lemma found_project_run pid a h d :
  h !! a = Some d ->
  exists h',
    found_project pid a h = Ok (Some {| status := 200; body := VDict a |}) h'
    /\ h' !! a = Some (served_record pid (length h) d).
Proof.
  intros Ha. unfold found_project, served_record.
  mstep ltac:(by apply setitem_dict).
  eapply lookup_updated in Ha.
  destruct (inject_defaults_run _ _ _ Ha) as (h' & Hrun & Hh').
  mstep ltac:(exact Hrun).
  rewrite length_insert in Hh'.
  exists h'. split; [reflexivity | exact Hh'].
Qed.

Lemma with_defaults_id n d :
  dict_lookup "id" (with_defaults n d) = dict_lookup "id" d.
Proof.
  unfold with_defaults.
  repeat (destruct (bool_decide _)); by rewrite ?dict_lookup_set_ne.
Qed.

Lemma served_record_id pid n d :
  dict_lookup "id" (served_record pid n d) = Some (VStr pid).
Proof.
  unfold served_record. by rewrite with_defaults_id, dict_lookup_set_eq.
Qed.

Lemma served_record_capabilities_absent pid n d :
  dict_lookup "capabilities" d = None ->
  dict_lookup "capabilities" (served_record pid n d)
  = Some (VList (map VStr default_capabilities)).
Proof.
  intros Hd. unfold served_record, with_defaults.
  set (d1 := dict_set "id" (VStr pid) d).
  assert (dict_lookup "capabilities" d1 = None) as H1
    by (unfold d1; by rewrite dict_lookup_set_ne).
  destruct (bool_decide (is_Some (dict_lookup "industry_applications" d1))).
  - rewrite H1, bool_decide_eq_false_2 by (by intros [? ?]).
    apply dict_lookup_set_eq.
  - rewrite dict_lookup_set_ne, H1 by done.
    rewrite bool_decide_eq_false_2 by (by intros [? ?]).
    apply dict_lookup_set_eq.
Qed.

Lemma served_record_capabilities_present pid n d v :
  dict_lookup "capabilities" d = Some v ->
  dict_lookup "capabilities" (served_record pid n d) = Some v.
Proof.
  intros Hd. unfold served_record, with_defaults.
  set (d1 := dict_set "id" (VStr pid) d).
  assert (dict_lookup "capabilities" d1 = Some v) as H1
    by (unfold d1; by rewrite dict_lookup_set_ne).
  destruct (bool_decide (is_Some (dict_lookup "industry_applications" d1))).
  - by rewrite H1, bool_decide_eq_true_2 by eauto.
  - rewrite dict_lookup_set_ne, H1 by done.
    rewrite bool_decide_eq_true_2 by eauto.
    by rewrite dict_lookup_set_ne.
Qed.

(** ** Answers of the handlers *)

Lemma answers_error code msg h :
  answers
    ((let* d := alloc (error_body msg) in
      let* b := jsonify d in
      respond code b) h)
    code (error_body msg).
Proof.
  exists (length h), (h ++ [error_body msg]). split; [reflexivity|].
  by apply list_lookup_middle.
Qed.

Lemma is_document_inv h root view :
  is_document h root view ->
  exists cats,
    (let* seq := get_method root "projects" (VList []) in iter seq) h
    = Ok cats h
    /\ Forall2 (is_category h) cats view.
Proof.
  intros (r & d & cats & -> & Hr & Hcats & Hall).
  exists cats. split; [|done].
  erewrite bind_ok by (by apply get_method_dict). by rewrite Hcats.
Qed.

Lemma bind_assoc {A B C} (m : M A) (f : A -> M B) (g : B -> M C) h :
  bind (bind m f) g h = bind m (fun a => bind (f a) g) h.
Proof. unfold bind. by destruct (m h). Qed.

Lemma get_project_too_short pid h0 :
  length (split "-" pid) < 2 ->
  answers (get_project w safe_load pid h0) 400
    (error_body "Invalid project ID").
Proof.
  intros Hlen. unfold get_project.
  destruct (load_project_data_total h0) as (root & h & Hload).
  mstep ltac:(exact Hload).
  destruct (split "-" pid) as [|p0 [|p1 rest]]; try apply answers_error.
  simpl in Hlen. lia.
Qed.

Lemma get_project_bad_index pid p0 p1 rest h0 :
  split "-" pid = p0 :: p1 :: rest ->
  py_int p1 = None ->
  answers (get_project w safe_load pid h0) 400
    (error_body "Invalid project index").
Proof.
  intros Hsplit Hint. unfold get_project.
  destruct (load_project_data_total h0) as (root & h & Hload).
  mstep ltac:(exact Hload).
  rewrite Hsplit, Hint. apply answers_error.
Qed.

Lemma get_project_loop_reached pid p0 p1 rest z h0 root h view :
  split "-" pid = p0 :: p1 :: rest ->
  py_int p1 = Some z ->
  load_project_data w safe_load h0 = Ok root h ->
  is_document h root view ->
  exists cats,
    Forall2 (is_category h) cats view
    /\ get_project w safe_load pid h0
       = (let* r := get_project_loop pid p0 z cats in
          match r with
          | Some resp => ret resp
          | None =>
              let* d := alloc (error_body "Project not found") in
              let* b := jsonify d in
              respond 404 b
          end) h.
Proof.
  intros Hsplit Hint Hload (cats & Hcats & Hall)%is_document_inv.
  exists cats. split; [done|].
  unfold get_project.
  mstep ltac:(exact Hload).
  rewrite Hsplit, Hint.
  rewrite <- bind_assoc.
  by mstep ltac:(exact Hcats).
Qed.

Lemma get_project_not_found pid p0 p1 rest z h0 root h view :
  split "-" pid = p0 :: p1 :: rest ->
  py_int p1 = Some z ->
  load_project_data w safe_load h0 = Ok root h ->
  is_document h root view ->
  resolve p0 z view = None ->
  answers (get_project w safe_load pid h0) 404
    (error_body "Project not found").
Proof.
  intros Hsplit Hint Hload Hdoc Hres.
  destruct (get_project_loop_reached _ _ _ _ _ _ _ _ _ Hsplit Hint Hload Hdoc)
    as (cats & Hall & ->).
  mstep ltac:(by eapply get_project_loop_none).
  apply answers_error.
Qed.

Lemma get_project_found pid p0 p1 rest z h0 root h view a d :
  split "-" pid = p0 :: p1 :: rest ->
  py_int p1 = Some z ->
  load_project_data w safe_load h0 = Ok root h ->
  is_document h root view ->
  resolve p0 z view = Some a ->
  h !! a = Some d ->
  exists h',
    get_project w safe_load pid h0
    = Ok {| status := 200; body := VDict a |} h'
    /\ h' !! a = Some (served_record pid (length h) d).
Proof.
  intros Hsplit Hint Hload Hdoc Hres Ha.
  destruct (get_project_loop_reached _ _ _ _ _ _ _ _ _ Hsplit Hint Hload Hdoc)
    as (cats & Hall & ->).
  destruct (found_project_run pid _ _ _ Ha) as (h' & Hrun & Hh').
  exists h'. split; [|done].
  mstep ltac:(erewrite get_project_loop_found by done; exact Hrun).
  reflexivity.
Qed.


(** ** Listing a category *)







(** ** The claims about [get_project] *)



(** ** The claim about [get_projects_by_category] *)


(** ** Every success of [get_project] *)

Lemma bind_ext {A B} (m : M A) (f g : A -> M B) h :
  (forall a h', f a h' = g a h') -> bind m f h = bind m g h.
Proof. intros Hfg. unfold bind. by destruct (m h). Qed.

Lemma get_project_loop_search pid slug z cats :
  forall h,
    get_project_loop pid slug z cats h
    = (let* found := search slug z cats in serve pid found) h.
Proof.
  induction cats as [|category rest IH]; intros h; [reflexivity|].
  cbn [get_project_loop search].
  rewrite bind_assoc. apply bind_ext. intros label h1.
  rewrite bind_assoc. apply bind_ext. intros slug' h2.
  destruct (String.eqb slug' slug); [|apply IH].
  rewrite bind_assoc. apply bind_ext. intros projects h3.
  rewrite bind_assoc. apply bind_ext. intros [] h4; [|apply IH].
  rewrite bind_assoc. apply bind_ext. intros project h5.
  reflexivity.
Qed.

Lemma read_only_ret {A} (a : A) : read_only (ret a).
Proof. intros h a' h'. unfold ret. congruence. Qed.

Lemma read_only_raise {A} e : read_only (@raise A e).
Proof. intros h a' h'. discriminate. Qed.

Lemma read_only_bind {A B} (m : M A) (f : A -> M B) :
  read_only m -> (forall a, read_only (f a)) -> read_only (bind m f).
Proof.
  intros Hm Hf h b h'. unfold bind.
  destruct (m h) as [a h1|e] eqn:E; [|discriminate].
  intros Hfa. apply Hf in Hfa. apply Hm in E. congruence.
Qed.

Lemma read_only_deref a : read_only (deref a).
Proof. intros h d h'. unfold deref. destruct (h !! a); congruence. Qed.

Create HintDb ro.

#[local] Hint Resolve read_only_ret read_only_raise read_only_deref : ro.

Ltac read_only_tac :=
  repeat first
    [ apply read_only_bind
    | match goal with |- forall _, _ => intro end
    | progress auto with ro
    | match goal with |- read_only (match ?x with _ => _ end) => destruct x end ].

Lemma read_only_getitem o k : read_only (getitem o k).
Proof. destruct o; unfold getitem; read_only_tac. Qed.

Lemma read_only_get_method o k dflt : read_only (get_method o k dflt).
Proof. destruct o; unfold get_method; read_only_tac. Qed.

Lemma read_only_len o : read_only (len o).
Proof. destruct o; unfold len; read_only_tac. Qed.

Lemma read_only_iter o : read_only (iter o).
Proof. destruct o; unfold iter; read_only_tac. Qed.

Lemma read_only_index o i : read_only (index o i).
Proof. destruct o; unfold index; read_only_tac. Qed.

Lemma read_only_slug_of o : read_only (slug_of o).
Proof. destruct o; unfold slug_of; read_only_tac. Qed.

#[local] Hint Resolve read_only_getitem read_only_get_method read_only_len
  read_only_iter read_only_index read_only_slug_of : ro.

Lemma read_only_search slug z cats : read_only (search slug z cats).
Proof.
  induction cats as [|category rest IH]; cbn [search]; [auto with ro|].
  apply read_only_bind; [auto with ro | intros label].
  apply read_only_bind; [auto with ro | intros slug'].
  destruct (String.eqb slug' slug); [|exact IH].
  apply read_only_bind; [auto with ro | intros projects].
  apply read_only_bind.
  - destruct (0 <=? z)%Z; read_only_tac.
  - intros []; [read_only_tac | exact IH].
Qed.

Lemma serve_inv pid found (h : heap) r h' :
  serve pid found h = Ok (Some r) h' ->
  exists a d,
    found = Some (VDict a) /\ h !! a = Some d
    /\ r = {| status := 200; body := VDict a |}
    /\ h' !! a = Some (served_record pid (length h) d).
Proof.
  destruct found as [project|]; [|discriminate].
  destruct project as [| | | | |a]; try discriminate.
  destruct (h !! a) as [d|] eqn:Ha.
  - destruct (found_project_run pid a h d Ha) as (h1 & Hrun & Hh1).
    unfold found_project in Hrun. cbn [serve]. rewrite Hrun.
    intros [= <- <-]. by exists a, d.
  - cbn [serve]. unfold setitem at 1. unfold bind at 1 2, deref.
    by rewrite Ha.
Qed.

Lemma get_project_success_inv pid h0 r h' :
  get_project w safe_load pid h0 = Ok r h' ->
  status r = 200 ->
  exists root h a d,
    load_project_data w safe_load h0 = Ok root h
    /\ body r = VDict a /\ h !! a = Some d
    /\ h' !! a = Some (served_record pid (length h) d).
Proof.
  destruct (load_project_data_total h0) as (root & h & Hload).
  unfold get_project. mstep ltac:(exact Hload).
  intros Hrun Hst. exists root, h.
  assert (forall code msg (hh : heap),
            (let* d := alloc (error_body msg) in
             let* b := jsonify d in
             respond code b) hh = Ok r h' -> status r = code) as Herr
    by (intros code msg hh [= <- _]; reflexivity).
  destruct (split "-" pid) as [|p0 [|p1 rest]];
    try (apply Herr in Hrun; congruence).
  destruct (py_int p1) as [z|]; [|apply Herr in Hrun; congruence].
  unfold bind at 1 in Hrun.
  destruct (get_method root "projects" (VList []) h) as [seq h1|] eqn:E1;
    [|discriminate].
  apply read_only_get_method in E1 as ->.
  unfold bind at 1 in Hrun.
  destruct (iter seq h) as [cats h1|] eqn:E2; [|discriminate].
  apply read_only_iter in E2 as ->.
  unfold bind at 1 in Hrun. rewrite get_project_loop_search in Hrun.
  unfold bind at 1 in Hrun.
  destruct (search p0 z cats h) as [found h1|] eqn:E3; [|discriminate].
  apply read_only_search in E3 as ->.
  destruct (serve pid found h) as [[r'|] h1|] eqn:E4; try discriminate.
  - injection Hrun as -> ->.
    apply serve_inv in E4 as (a & d & _ & Ha & -> & Hh').
    by exists a, d.
  - apply Herr in Hrun. congruence.
Qed.

(** C6: whenever [get_project] succeeds, the body of its answer is a
    project record of the loaded document; a record loaded without
    'capabilities' is returned with the four default strings, in order, and
    a record loaded with 'capabilities' is returned with its own value. *)
Theorem get_project_capabilities
    (pid : string) (h0 h' : heap) (r : response) :
  get_project w safe_load pid h0 = Ok r h' ->
  status r = 200 ->
  exists root h a d d',
    load_project_data w safe_load h0 = Ok root h
    /\ body r = VDict a /\ h !! a = Some d /\ h' !! a = Some d'
    /\ (dict_lookup "capabilities" d = None ->
        dict_lookup "capabilities" d'
        = Some (VList [ VStr "Strategic vision and planning";
                        VStr "Technical implementation expertise";
                        VStr "Cross-functional team leadership";
                        VStr "Innovation and creative problem-solving" ]))
    /\ (forall v, dict_lookup "capabilities" d = Some v ->
                  dict_lookup "capabilities" d' = Some v).
Proof.
  intros Hrun Hst.
  destruct (get_project_success_inv _ _ _ _ Hrun Hst)
    as (root & h & a & d & Hload & Hbody & Ha & Hh').
  exists root, h, a, d, (served_record pid (length h) d).
  repeat split; try done.
  - apply served_record_capabilities_absent.
  - apply served_record_capabilities_present.
Qed.

(** ** A projects file that cannot be loaded *)



(** ** The CV *)

Lemma load_cv_files_unreadable dir a files :
  forall h : heap,
    is_Some (h !! a) ->
    (exists f e, In f files /\ read_text w (path_join dir f) = Failed e) ->
    exists e, load_cv_files w markdown dir (VDict a) files h = Raise e.
Proof.
  induction files as [|file rest IH]; intros h [d Ha] (f & e & Hin & Hf).
  - destruct Hin.
  - cbn [load_cv_files].
    destruct (read_text w (path_join dir file)) as [content|e'] eqn:Hread.
    + mstep ltac:(reflexivity).
      mstep ltac:(by apply setitem_dict).
      apply IH.
      * eexists. by eapply lookup_updated.
      * exists f, e. split; [|done].
        destruct Hin as [->|]; [congruence | done].
    + exists e'. reflexivity.
Qed.

(** C7 (as amended): [load_cv_data] absorbs no file-system error.  When
    listing the CV directory fails, the error leaves [load_cv_data] and
    [get_cv]: the request fails; so does the failure to read one of the
    Markdown files listed. *)
Theorem get_cv_propagates (h0 : heap) :
  (forall e,
      listdir w (cv_directory w) = Failed e ->
      load_cv_data w markdown h0 = Raise e
      /\ get_cv w markdown h0 = Raise e)
  /\ (forall names f e,
        listdir w (cv_directory w) = Done names ->
        In f names -> endswith ".md" f = true ->
        read_text w (path_join (cv_directory w) f) = Failed e ->
        exists e', get_cv w markdown h0 = Raise e').
Proof.
  split.
  - intros e He. unfold get_cv, load_cv_data. by rewrite !(bind_raise _ _ _ e)
      by (try apply bind_raise; by rewrite He).
  - intros names f e Hls Hin Hmd Hf.
    destruct (load_cv_files_unreadable (cv_directory w) (length h0)
                (List.filter (endswith ".md") names) (h0 ++ [[]]))
      as [e' He'].
    { eexists. by apply list_lookup_middle. }
    { exists f, e. split; [|done]. apply filter_In. by split. }
    exists e'. unfold get_cv, load_cv_data.
    apply bind_raise. rewrite Hls.
    mstep ltac:(reflexivity). mstep ltac:(reflexivity).
    by apply bind_raise.
Qed.

End Properties.

(** ** The industry relevance table *)

Lemma alloc_entries_run tbl :
  forall h : heap,
    alloc_entries tbl h
    = Ok (entries_at (length h) tbl)
         (h ++ map (fun ke => relevance_entry ke.2) tbl).
Proof.
  induction tbl as [|[k e] tbl IH]; intros h; simpl.
  - unfold ret. by rewrite app_nil_r.
  - unfold bind, alloc. rewrite IH. unfold ret.
    rewrite length_app. simpl. rewrite Nat.add_1_r.
    by rewrite <- app_assoc.
Qed.

Lemma entries_at_lookup k tbl :
  forall (pre post : heap),
    match table_lookup k tbl with
    | Some e =>
        exists a,
          dict_lookup k (entries_at (length pre) tbl) = Some (VDict a)
          /\ (pre ++ map (fun ke => relevance_entry ke.2) tbl ++ post) !! a
             = Some (relevance_entry e)
    | None => dict_lookup k (entries_at (length pre) tbl) = None
    end.
Proof.
  induction tbl as [|[k' e'] tbl IH]; intros pre post; [done|].
  cbn [table_lookup entries_at dict_lookup map].
  destruct (String.eqb k' k).
  - exists (length pre). split; [done|]. by apply list_lookup_middle.
  - specialize (IH (pre ++ [relevance_entry e']) post).
    rewrite length_app, Nat.add_1_r in IH. cbn [length] in IH.
    by rewrite <- app_assoc in IH.
Qed.

Lemma relevance_answer industry_id (h0 : heap) :
  answers (get_industry_project_relevance industry_id h0) 200
    (relevance_entry
       (default (default ([], []) (table_lookup "custom" relevance_table))
          (table_lookup industry_id relevance_table))).
Proof.
  unfold get_industry_project_relevance.
  mstep ltac:(apply alloc_entries_run).
  mstep ltac:(reflexivity).
  set (entries := entries_at (length h0) relevance_table).
  set (h1 := h0 ++ map (fun ke => relevance_entry ke.2) relevance_table).
  assert ((h1 ++ [entries]) !! length h1 = Some entries) as Hmap
    by (by apply list_lookup_middle).
  assert (forall k,
            match table_lookup k relevance_table with
            | Some e =>
                exists a, dict_lookup k entries = Some (VDict a)
                  /\ (h1 ++ [entries]) !! a = Some (relevance_entry e)
            | None => dict_lookup k entries = None
            end) as Hkeys.
  { intros k. pose proof (entries_at_lookup k relevance_table h0 [entries])
      as Hk. unfold h1. by rewrite <- app_assoc. }
  mstep ltac:(apply contains_dict; exact Hmap).
  pose proof (Hkeys industry_id) as Hid.
  destruct (table_lookup industry_id relevance_table) as [e|].
  - destruct Hid as (a & Hd & Ha).
    rewrite Hd, bool_decide_eq_true_2 by eauto.
    mstep ltac:(eapply getitem_dict; [exact Hmap | exact Hd]).
    by exists a, (h1 ++ [entries]).
  - rewrite Hid, bool_decide_eq_false_2 by (by intros [? ?]).
    destruct (Hkeys "custom") as (a & Hd & Ha).
    mstep ltac:(eapply getitem_dict; [exact Hmap | exact Hd]).
    by exists a, (h1 ++ [entries]).
Qed.

(** C5: [get_industry_project_relevance] answers 200 for every industry
    id: with the entry of the id when it is one of the six keys of the
    table, with the entry of 'custom' otherwise; so an unknown id is
    answered as 'custom' is. *)
Theorem relevance_lookup_total (industry_id : string) (h0 : heap) :
  map fst relevance_table
  = [ "financial-services"; "tech-consulting"; "ai-implementation";
      "digital-transformation"; "startup-innovation"; "custom" ]
  /\ (forall e,
        table_lookup industry_id relevance_table = Some e ->
        answers (get_industry_project_relevance industry_id h0) 200
          (relevance_entry e))
  /\ (table_lookup industry_id relevance_table = None ->
      exists e,
        table_lookup "custom" relevance_table = Some e
        /\ answers (get_industry_project_relevance industry_id h0) 200
             (relevance_entry e))
  /\ get_industry_project_relevance "unknown-industry" h0
     = get_industry_project_relevance "custom" h0.
Proof.
  pose proof (relevance_answer industry_id h0) as Hans.
  split; [reflexivity|]. split; [|split].
  - intros e He. by rewrite He in Hans.
  - intros Hnone. rewrite Hnone in Hans. by eexists.
  - unfold get_industry_project_relevance.
    rewrite !(bind_ok _ _ _ _ _ (alloc_entries_run relevance_table h0)).
    set (entries := entries_at (length h0) relevance_table).
    set (h1 := h0 ++ map (fun ke => relevance_entry ke.2) relevance_table).
    assert (alloc entries h1 = Ok (VDict (length h1)) (h1 ++ [entries]))
      as Halloc by reflexivity.
    assert ((h1 ++ [entries]) !! length h1 = Some entries) as Hmap
      by (by apply list_lookup_middle).
    rewrite !(bind_ok _ _ _ _ _ Halloc).
    by rewrite !(bind_ok _ _ _ _ _ (contains_dict _ _ _ _ Hmap)).
Qed.

(** ** The sample worlds *)

Lemma lab_loaded :
  load_project_data (Sample.with_projects "lab") Sample.safe_load []
  = Ok (VDict 8) Sample.lab_heap.
Proof. reflexivity. Qed.

Lemma lab_is_document :
  is_document Sample.lab_heap (VDict 8)
    Sample.lab_view.
Proof.
  eexists 8, _, _. split; [reflexivity|]. split; [reflexivity|].
  split; [reflexivity|].
  repeat constructor;
    (eexists _, _; split; [reflexivity|]; split; [reflexivity|];
     split; [reflexivity|]; split; [reflexivity|];
     repeat constructor; by eexists).
Qed.


(** C1: with the one category "AI & Technology Innovation" and its two
    projects, [get_projects] lists the category under the id
    "ai-technology-innovation" with [projectCount] 2 and the category
    listing hands out the id "ai-technology-innovation-1" for the second
    project, but [get_project] answers that very id with 400
    [{"error": "Invalid project index"}], in whatever world it runs: the
    split on ["-"] cuts the slug itself, and "technology" is no integer. *)
Theorem hyphenated_slug_ids :
  reply (get_projects (Sample.with_projects "ai") Sample.safe_load [])
  = Some (200,
          JObj [("categories",
                 JList [JObj [("id", JStr "ai-technology-innovation");
                              ("name", JStr "AI & Technology Innovation");
                              ("projectCount", JInt 2)]])])
  /\ reply (get_projects_by_category (Sample.with_projects "ai")
              Sample.safe_load "ai-technology-innovation" [])
     = Some (200,
             JObj [("category", JStr "AI & Technology Innovation");
                   ("projects",
                    JList [JObj [("title", JStr "Model Deployment");
                                 ("id", JStr "ai-technology-innovation-0")];
                           JObj [("title", JStr "Knowledge Graph");
                                 ("id", JStr "ai-technology-innovation-1")]])])
  /\ reply (get_project (Sample.with_projects "ai") Sample.safe_load
              "ai-technology-innovation-1" [])
     = Some (400, JObj [("error", JStr "Invalid project index")])
  /\ forall w safe_load h0,
       answers (get_project w safe_load "ai-technology-innovation-1" h0) 400
         (error_body "Invalid project index").
Proof.
  split; [reflexivity|]. split; [reflexivity|]. split; [reflexivity|].
  intros w safe_load h0.
  by eapply get_project_bad_index.
Qed.

(** ** The theorems on the sample worlds *)



Lemma get_project_capabilities_witness :
  exists r h',
    get_project (Sample.with_projects "lab") Sample.safe_load
      "research-0" [] = Ok r h'
    /\ status r = 200
    /\ exists root h a d d',
         load_project_data (Sample.with_projects "lab") Sample.safe_load []
         = Ok root h
         /\ body r = VDict a /\ h !! a = Some d /\ h' !! a = Some d'
         /\ (dict_lookup "capabilities" d = None ->
             dict_lookup "capabilities" d'
             = Some (VList
                       [ VStr "Strategic vision and planning";
                         VStr "Technical implementation expertise";
                         VStr "Cross-functional team leadership";
                         VStr "Innovation and creative problem-solving" ]))
         /\ (forall v, dict_lookup "capabilities" d = Some v ->
                       dict_lookup "capabilities" d' = Some v).
Proof.
  eexists _, _. split; [vm_compute; reflexivity|]. split; [reflexivity|].
  apply (get_project_capabilities (Sample.with_projects "lab")
           Sample.safe_load "research-0" []); reflexivity.
Defined.






Lemma get_cv_propagates_witness :
  load_cv_data Sample.bare Sample.markdown [] = Raise OSError
  /\ get_cv Sample.bare Sample.markdown [] = Raise OSError.
Proof.
  exact (proj1 (get_cv_propagates Sample.bare Sample.markdown []) OSError
           eq_refl).
Defined.

(** With a CV directory that cannot be listed, [get_cv] gives no answer at
    all, so not the empty mapping. *)
Lemma get_cv_no_empty_mapping :
  listdir Sample.bare (cv_directory Sample.bare) = Failed OSError
  /\ ~ answers (get_cv Sample.bare Sample.markdown []) 200 [].
Proof.
  split; [reflexivity|].
  intros (a & h & Hrun & _). vm_compute in Hrun. discriminate.
Qed.

Lemma relevance_lookup_total_witness :
  answers (get_industry_project_relevance "tech-consulting" []) 200
    (relevance_entry
       (["ai-technology-innovation-1"; "business-transformation-innovation-0";
         "business-transformation-innovation-2"],
        ["business-transformation-innovation-2"])).
Proof.
  exact (proj1 (proj2 (relevance_lookup_total "tech-consulting" [])) _
           eq_refl).
Defined.

(** * Further properties of the handlers *)

(** ** Slugs and project ids *)





Lemma split_index_nonneg pid p0 p1 rest z :
  split "-" pid = p0 :: p1 :: rest -> py_int p1 = Some z -> (0 <= z)%Z.
Proof.
  intros Hsplit Hint.
  eapply py_int_nonneg; [|exact Hint].
  pose proof (split_dash_pieces pid) as Hall. rewrite Hsplit in Hall.
  by apply Forall_cons in Hall as [_ [Hp1 _]%Forall_cons].
Qed.

(** X2: the index that [get_project] reads off an id is never negative:
    the pieces of the split hold no minus sign, so the test
    [0 <= project_index] of the handler always passes. *)
Theorem get_project_index_nonneg
    (pid p0 p1 : string) (rest : list string) (z : Z) :
  split "-" pid = p0 :: p1 :: rest ->
  py_int p1 = Some z ->
  (0 <= z)%Z.
Proof. apply split_index_nonneg. Qed.









Lemma resolve_member slug z view a :
  resolve slug z view = Some a ->
  exists c, c ∈ view /\ slugify c.1 = slug /\ a ∈ c.2.
Proof.
  induction view as [|c view IH]; [discriminate|].
  cbn [resolve].
  destruct (String.eqb_spec (slugify c.1) slug) as [Heq|_]; cbn [andb].
  - destruct (_ && _).
    + intros Ha%list_elem_of_lookup_2. exists c. by repeat split; [left|..].
    + intros (c' & ? & ? & ?)%IH. exists c'. by repeat split; [right|..].
  - intros (c' & ? & ? & ?)%IH. exists c'. by repeat split; [right|..].
Qed.

Lemma answers_status r code d (resp : response) h :
  answers r code d -> r = Ok resp h -> status resp = code.
Proof. intros (a & h1 & -> & _) [= <- _]. reflexivity. Qed.

Section Ids.

Variable w : world.
Variable safe_load : string -> heap -> option (pyval * heap).


(** X4: [get_project] only ever finds projects of categories whose slug
    holds no ["-"]: on a projects document, every answer 200 is a record of
    such a category.  The projects of a category whose label has a space
    are out of its reach. *)
Theorem get_project_reaches_dashless_slugs
    (pid : string) (h0 h h' : heap) (root : pyval)
    (view : list category_view) (r : response) :
  load_project_data w safe_load h0 = Ok root h ->
  is_document h root view ->
  get_project w safe_load pid h0 = Ok r h' ->
  status r = 200 ->
  exists c a,
    c ∈ view /\ a ∈ c.2 /\ body r = VDict a
    /\ all_chars not_dash (slugify c.1) = true.
Proof.
  intros Hload Hdoc Hrun Hst.
  destruct (split "-" pid) as [|p0 [|p1 rest]] eqn:Hsplit.
  - pose proof (get_project_too_short w safe_load pid h0) as Hans.
    rewrite Hsplit in Hans.
    specialize (Hans ltac:(simpl; lia)).
    pose proof (answers_status _ _ _ _ _ Hans Hrun). congruence.
  - pose proof (get_project_too_short w safe_load pid h0) as Hans.
    rewrite Hsplit in Hans.
    specialize (Hans ltac:(simpl; lia)).
    pose proof (answers_status _ _ _ _ _ Hans Hrun). congruence.
  - destruct (py_int p1) as [z|] eqn:Hint.
    + destruct (resolve p0 z view) as [a|] eqn:Hres.
      * pose proof Hdoc as (cats & _ & Hall)%is_document_inv.
        destruct (resolve_allocated _ _ _ _ _ _ Hall Hres) as [d Ha].
        destruct (get_project_found w safe_load _ _ _ _ _ _ _ _ _ _ _
                    Hsplit Hint Hload Hdoc Hres Ha) as (h1 & Hrun1 & _).
        rewrite Hrun1 in Hrun. injection Hrun as <- <-.
        destruct (resolve_member _ _ _ _ Hres) as (c & Hc & Hslug & Hin).
        exists c, a. repeat split; try done.
        rewrite Hslug.
        pose proof (split_dash_pieces pid) as Hp. rewrite Hsplit in Hp.
        by apply Forall_cons in Hp as [Hp0 _].
      * pose proof (get_project_not_found w safe_load _ _ _ _ _ _ _ _ _
                      Hsplit Hint Hload Hdoc Hres) as Hans.
        pose proof (answers_status _ _ _ _ _ Hans Hrun). congruence.
    + pose proof (get_project_bad_index w safe_load _ _ _ _ h0
                    Hsplit Hint) as Hans.
      pose proof (answers_status _ _ _ _ _ Hans Hrun). congruence.
Qed.

End Ids.

(** ** The listing of the categories *)

Lemma is_category_mono (h ext : heap) v c :
  is_category h v c -> is_category (h ++ ext) v c.
Proof.
  intros (a & d & -> & Ha & Hname & Hps & Hrecs).
  exists a, d. repeat split; try done.
  - by apply lookup_app_l_Some.
  - eapply Forall_impl; [exact Hrecs|].
    intros p [dp Hp]. exists dp. by apply lookup_app_l_Some.
Qed.

Lemma get_projects_loop_run cats :
  forall view (h : heap) acc,
    Forall2 (is_category h) cats view ->
    get_projects_loop cats acc h
    = Ok (acc ++ map VDict (seq (length h) (length view)))
         (h ++ map category_entry view).
Proof.
  induction cats as [|v cats IH]; intros view h acc Hall.
  - apply Forall2_nil_inv_l in Hall as ->.
    cbn [get_projects_loop length seq map]. unfold ret.
    by rewrite !app_nil_r.
  - apply Forall2_cons_inv_l in Hall as (c & view' & Hc & Hall & ->).
    cbn [get_projects_loop].
    pose proof Hc as (a & d & -> & Ha & Hget & Hps)%is_category_inv.
    mstep ltac:(exact Hget). unfold slug_of at 1.
    mstep ltac:(reflexivity).
    mstep ltac:(exact Hget).
    mstep ltac:(exact Hps).
    unfold len at 1. mstep ltac:(reflexivity).
    mstep ltac:(reflexivity).
    rewrite length_map.
    rewrite (IH view' (h ++ [category_entry c])).
    + rewrite length_app. cbn [length seq map].
      rewrite Nat.add_1_r, <- !app_assoc. reflexivity.
    + eapply Forall2_impl; [exact Hall|].
      intros v' c'. apply is_category_mono.
Qed.

Section Listing.

Variable w : world.
Variable safe_load : string -> heap -> option (pyval * heap).

(** X5: on a projects document, [get_projects] answers 200 with one entry
    per category, in load order; the entry of a category holds its slug
    under 'id', its label under 'name' and the number of its projects
    under 'projectCount'.  The entries and the answer are new objects: the
    loaded document is left as it is. *)
Theorem get_projects_lists_categories
    (h0 h : heap) (root : pyval) (view : list category_view) :
  load_project_data w safe_load h0 = Ok root h ->
  is_document h root view ->
  get_projects w safe_load h0
  = Ok {| status := 200; body := VDict (length h + length view) |}
       (h ++ map category_entry view
          ++ [[("categories",
                VList (map VDict (seq (length h) (length view))))]]).
Proof.
  intros Hload (cats & Hcats & Hall)%is_document_inv.
  unfold get_projects.
  mstep ltac:(exact Hload).
  rewrite <- bind_assoc. mstep ltac:(exact Hcats).
  mstep ltac:(by apply get_projects_loop_run).
  unfold alloc, jsonify, respond, bind, ret.
  rewrite length_app, length_map, <- app_assoc. reflexivity.
Qed.




End Listing.

(** ** What [get_project] writes *)

Lemma inject_defaults_heap a (h : heap) d :
  h !! a = Some d ->
  inject_defaults (VDict a) h
  = Ok tt (<[a := with_defaults (length h) d]> (h ++ fresh_applications d)).
Proof.
  intros Ha. unfold inject_defaults, with_defaults, fresh_applications.
  mstep ltac:(by apply contains_dict).
  destruct (bool_decide (is_Some (dict_lookup "industry_applications" d))).
  - mstep ltac:(reflexivity). mstep ltac:(by apply contains_dict).
    rewrite app_nil_r.
    destruct (bool_decide _).
    + by rewrite list_insert_id.
    + by erewrite setitem_dict.
  - pose proof (lookup_app_l_Some _
      (map industry_application default_industry_applications) _ _ Ha) as Ha2.
    erewrite bind_ok; cycle 1.
    { erewrite bind_ok by apply alloc_all_run. by apply setitem_dict. }
    cbn [length map seq default_industry_applications].
    pose proof Ha2 as Ha3. eapply lookup_updated in Ha3.
    mstep ltac:(apply contains_dict; exact Ha3).
    destruct (bool_decide _); [reflexivity|].
    erewrite setitem_dict by exact Ha3.
    by rewrite list_insert_insert_eq.
Qed.

Lemma fresh_applications_set_id pid d :
  fresh_applications (dict_set "id" (VStr pid) d) = fresh_applications d.
Proof. unfold fresh_applications. by rewrite dict_lookup_set_ne. Qed.

Lemma found_project_heap pid a (h : heap) d :
  h !! a = Some d ->
  found_project pid a h
  = Ok (Some {| status := 200; body := VDict a |})
       (<[a := served_record pid (length h) d]> (h ++ fresh_applications d)).
Proof.
  intros Ha. unfold found_project, served_record.
  mstep ltac:(by apply setitem_dict).
  pose proof (lookup_lt_Some _ _ _ Ha) as Hlt.
  eapply lookup_updated in Ha.
  mstep ltac:(by apply inject_defaults_heap).
  rewrite length_insert, fresh_applications_set_id.
  rewrite <- insert_app_l by done.
  by rewrite list_insert_insert_eq.
Qed.

Lemma serve_heap pid found (h : heap) r h' :
  serve pid found h = Ok (Some r) h' ->
  exists a d,
    found = Some (VDict a) /\ h !! a = Some d
    /\ r = {| status := 200; body := VDict a |}
    /\ h' = <[a := served_record pid (length h) d]>
              (h ++ fresh_applications d).
Proof.
  destruct found as [project|]; [|discriminate].
  destruct project as [| | | | |a]; try discriminate.
  destruct (h !! a) as [d|] eqn:Ha.
  - pose proof (found_project_heap pid a h d Ha) as Hrun.
    unfold found_project in Hrun. cbn [serve]. rewrite Hrun.
    intros [= <- <-]. by exists a, d.
  - cbn [serve]. unfold setitem at 1. unfold bind at 1 2, deref.
    by rewrite Ha.
Qed.

Section Writes.

Variable w : world.
Variable safe_load : string -> heap -> option (pyval * heap).

Lemma get_project_success_heap pid h0 r h' :
  get_project w safe_load pid h0 = Ok r h' ->
  status r = 200 ->
  exists root (h : heap) a d,
    load_project_data w safe_load h0 = Ok root h
    /\ body r = VDict a /\ h !! a = Some d
    /\ h' = <[a := served_record pid (length h) d]>
              (h ++ fresh_applications d).
Proof.
  destruct (load_project_data_total w safe_load h0) as (root & h & Hload).
  unfold get_project. mstep ltac:(exact Hload).
  intros Hrun Hst. exists root, h.
  assert (forall code msg (hh : heap),
            (let* d := alloc (error_body msg) in
             let* b := jsonify d in
             respond code b) hh = Ok r h' -> status r = code) as Herr
    by (intros code msg hh [= <- _]; reflexivity).
  destruct (split "-" pid) as [|p0 [|p1 rest]];
    try (apply Herr in Hrun; congruence).
  destruct (py_int p1) as [z|]; [|apply Herr in Hrun; congruence].
  unfold bind at 1 in Hrun.
  destruct (get_method root "projects" (VList []) h) as [seq h1|] eqn:E1;
    [|discriminate].
  apply read_only_get_method in E1 as ->.
  unfold bind at 1 in Hrun.
  destruct (iter seq h) as [cats h1|] eqn:E2; [|discriminate].
  apply read_only_iter in E2 as ->.
  unfold bind at 1 in Hrun. rewrite get_project_loop_search in Hrun.
  unfold bind at 1 in Hrun.
  destruct (search p0 z cats h) as [found h1|] eqn:E3; [|discriminate].
  apply read_only_search in E3 as ->.
  destruct (serve pid found h) as [[r'|] h1|] eqn:E4; try discriminate.
  - injection Hrun as -> ->.
    apply serve_heap in E4 as (a & d & _ & Ha & -> & Hh').
    by exists a, d.
  - apply Herr in Hrun. congruence.
Qed.

(** X8: whenever [get_project] succeeds, a record loaded without
    'industry_applications' is returned with a list of three new
    dictionaries, the default industry applications in the order of the
    source, each with its 'industry' and its 'application'; a record
    loaded with 'industry_applications' is returned with its own value and
    nothing is created. *)
Theorem get_project_industry_applications
    (pid : string) (h0 h' : heap) (r : response) :
  get_project w safe_load pid h0 = Ok r h' ->
  status r = 200 ->
  exists root (h : heap) a d d',
    load_project_data w safe_load h0 = Ok root h
    /\ body r = VDict a /\ h !! a = Some d /\ h' !! a = Some d'
    /\ (dict_lookup "industry_applications" d = None ->
        dict_lookup "industry_applications" d'
        = Some (VList [ VDict (length h); VDict (S (length h));
                        VDict (S (S (length h))) ])
        /\ forall i e,
             default_industry_applications !! i = Some e ->
             h' !! (length h + i)
             = Some [("industry", VStr e.1); ("application", VStr e.2)])
    /\ (forall v, dict_lookup "industry_applications" d = Some v ->
                  dict_lookup "industry_applications" d' = Some v
                  /\ length h' = length h).
Proof.
  intros Hrun Hst.
  destruct (get_project_success_heap _ _ _ _ Hrun Hst)
    as (root & h & a & d & Hload & Hbody & Ha & ->).
  pose proof (lookup_lt_Some _ _ _ Ha) as Hlt.
  exists root, h, a, d, (served_record pid (length h) d).
  split; [done|]. split; [done|]. split; [done|]. split.
  { apply list_lookup_insert_eq. rewrite length_app. lia. }
  unfold served_record, with_defaults, fresh_applications.
  rewrite (dict_lookup_set_ne "id" "industry_applications") by done.
  split.
  - intros Hnone. rewrite Hnone.
    rewrite (bool_decide_eq_false_2 (is_Some None)) by (by intros [? ?]).
    split.
    + destruct (bool_decide _);
        rewrite ?(dict_lookup_set_ne "capabilities") by done;
        apply dict_lookup_set_eq.
    + intros i e Hi.
      rewrite list_lookup_insert_ne by lia.
      rewrite lookup_app_r by lia.
      replace (length h + i - length h) with i by lia.
      by rewrite list_lookup_fmap, Hi.
  - intros v Hv. rewrite Hv.
    rewrite (bool_decide_eq_true_2 (is_Some (Some v))) by eauto.
    split.
    + destruct (bool_decide _);
        rewrite ?(dict_lookup_set_ne "capabilities") by done;
        by rewrite (dict_lookup_set_ne "id") by done.
    + by rewrite length_insert, app_nil_r.
Qed.

(** X9: whenever [get_project] succeeds, the record it returns carries the
    id of the request under 'id' and, apart from 'id',
    'industry_applications' and 'capabilities', the fields it was loaded
    with; every other dictionary of the loaded document is unchanged. *)
Theorem get_project_keeps_the_rest
    (pid : string) (h0 h' : heap) (r : response) :
  get_project w safe_load pid h0 = Ok r h' ->
  status r = 200 ->
  exists root (h : heap) a d d',
    load_project_data w safe_load h0 = Ok root h
    /\ body r = VDict a /\ h !! a = Some d /\ h' !! a = Some d'
    /\ dict_lookup "id" d' = Some (VStr pid)
    /\ (forall k, k <> "id" -> k <> "industry_applications" ->
                  k <> "capabilities" ->
                  dict_lookup k d' = dict_lookup k d)
    /\ (forall a' d0, a' <> a -> h !! a' = Some d0 -> h' !! a' = Some d0).
Proof.
  intros Hrun Hst.
  destruct (get_project_success_heap _ _ _ _ Hrun Hst)
    as (root & h & a & d & Hload & Hbody & Ha & ->).
  pose proof (lookup_lt_Some _ _ _ Ha) as Hlt.
  exists root, h, a, d, (served_record pid (length h) d).
  split; [done|]. split; [done|]. split; [done|]. split.
  { apply list_lookup_insert_eq. rewrite length_app. lia. }
  split; [apply served_record_id|]. split.
  - intros k Hid Hia Hcap. unfold served_record, with_defaults.
    repeat (destruct (bool_decide _));
      by rewrite ?dict_lookup_set_ne by done.
  - intros a' d0 Hne Ha'.
    rewrite list_lookup_insert_ne by done. by apply lookup_app_l_Some.
Qed.

End Writes.

(** ** Documents that are not what the handlers expect *)

Lemma get_projects_loop_app pre :
  forall rest acc (h : heap),
    get_projects_loop (pre ++ rest) acc h
    = (let* acc' := get_projects_loop pre acc in
       get_projects_loop rest acc') h.
Proof.
  induction pre as [|v pre IH]; intros rest acc h; [reflexivity|].
  cbn [app get_projects_loop].
  rewrite bind_assoc. apply bind_ext. intros label h1.
  rewrite bind_assoc. apply bind_ext. intros id h2.
  rewrite bind_assoc. apply bind_ext. intros name h3.
  rewrite bind_assoc. apply bind_ext. intros projects h4.
  rewrite bind_assoc. apply bind_ext. intros n h5.
  rewrite bind_assoc. apply bind_ext. intros entry h6.
  apply IH.
Qed.

Section Malformed.

Variable w : world.
Variable safe_load : string -> heap -> option (pyval * heap).


(** X11: a category without the key 'category' makes [get_projects] fail:
    when the categories before it are well formed, the handler raises
    [KeyError] whatever follows. *)
Theorem nameless_category_raises
    (h0 h : heap) (root : pyval) (r b : addr)
    (d db : list (string * pyval)) (pre post : list pyval)
    (view : list category_view) :
  load_project_data w safe_load h0 = Ok root h ->
  root = VDict r -> h !! r = Some d ->
  dict_lookup "projects" d = Some (VList (pre ++ VDict b :: post)) ->
  Forall2 (is_category h) pre view ->
  h !! b = Some db ->
  dict_lookup "category" db = None ->
  get_projects w safe_load h0 = Raise KeyError.
Proof.
  intros Hload -> Hr Hd Hpre Hb Hdb.
  unfold get_projects. mstep ltac:(exact Hload).
  mstep ltac:(by apply get_method_dict). rewrite Hd. cbn [default].
  unfold iter at 1. mstep ltac:(reflexivity).
  apply bind_raise. rewrite get_projects_loop_app.
  mstep ltac:(by apply get_projects_loop_run).
  cbn [get_projects_loop]. apply bind_raise.
  unfold getitem, bind, deref.
  rewrite (lookup_app_l_Some _ _ _ _ Hb). by rewrite Hdb.
Qed.

End Malformed.

(** ** Industry ids *)

Lemma replace_yaml_no_dot base :
  all_chars not_dot base = true ->
  replace_go ".yaml" "" 0 (base +:+ ".yaml") = base.
Proof.
  induction base as [|c base IH]; [reflexivity|].
  cbn [all_chars]. intros [Hc Hs]%andb_true_iff.
  change (String c base +:+ ".yaml") with (String c (base +:+ ".yaml")).
  cbn [replace_go]. rewrite prefix_head_ne.
  - by rewrite (IH Hs).
  - intros <-. discriminate.
Qed.

(** X12: the industry id of a file is its name without the extension: for
    a name [base] without a dot, the file [base.yaml] has the id [base]. *)
Theorem industry_id_of_plain_name (base : string) :
  all_chars not_dot base = true ->
  industry_id_of (base +:+ ".yaml") = base.
Proof. apply replace_yaml_no_dot. Qed.

(** ** The CV mapping *)

Lemma dict_set_fresh k v d :
  dict_lookup k d = None -> dict_set k v d = d ++ [(k, v)].
Proof.
  induction d as [|[k' v'] d IH]; simpl; [done|].
  destruct (String.eqb k' k); [discriminate|].
  intros Hd. by rewrite (IH Hd).
Qed.

Lemma dict_lookup_app k d1 d2 :
  dict_lookup k (d1 ++ d2)
  = match dict_lookup k d1 with
    | Some v => Some v
    | None => dict_lookup k d2
    end.
Proof.
  induction d1 as [|[k' v'] d1 IH]; simpl; [done|].
  by destruct (String.eqb k' k).
Qed.

Lemma insert_last {A} (l : list A) x y :
  <[length l := x]> (l ++ [y]) = l ++ [x].
Proof. induction l as [|z l IH]; simpl; [done|]. by rewrite IH. Qed.

Section Cv.

Variable w : world.
Variable markdown : string -> string.

Lemma load_cv_files_run (h0 : heap) files :
  forall acc,
    NoDup files ->
    (forall f, In f files -> dict_lookup f acc = None) ->
    (forall f, In f files -> is_Some (cv_entry w markdown f)) ->
    load_cv_files w markdown (cv_directory w) (VDict (length h0)) files
      (h0 ++ [acc])
    = Ok tt (h0 ++ [acc ++ omap (cv_entry w markdown) files]).
Proof.
  induction files as [|file rest IH]; intros acc Hnd Hfresh Hread.
  - cbn [load_cv_files omap list_omap]. unfold ret. by rewrite app_nil_r.
  - apply NoDup_cons in Hnd as [Hnin Hnd].
    destruct (Hread file (or_introl eq_refl)) as [e He].
    cbn [load_cv_files omap list_omap]. rewrite He.
    unfold cv_entry in He.
    destruct (read_text w (path_join (cv_directory w) file))
      as [content|]; [|discriminate].
    injection He as <-.
    mstep ltac:(reflexivity).
    mstep ltac:(apply setitem_dict; by apply list_lookup_middle).
    rewrite insert_last, dict_set_fresh by (apply Hfresh; by left).
    rewrite IH; [by rewrite <- app_assoc|done| |].
    + intros f Hf. rewrite dict_lookup_app, Hfresh by (by right).
      cbn [dict_lookup].
      destruct (String.eqb_spec file f) as [->|]; [|done].
      destruct Hnin. by apply list_elem_of_In.
    + intros f Hf. apply Hread. by right.
Qed.

Lemma cv_entries_keys files :
  (forall f, In f files -> is_Some (cv_entry w markdown f)) ->
  map fst (omap (cv_entry w markdown) files) = files.
Proof.
  induction files as [|file rest IH]; intros Hread; [done|].
  cbn [omap list_omap].
  destruct (Hread file (or_introl eq_refl)) as [e He]. rewrite He.
  cbn [map]. rewrite IH by (intros f Hf; apply Hread; by right).
  unfold cv_entry in He. destruct (read_text _ _); [|done].
  by injection He as <-.
Qed.

Lemma cv_entries_lookup files f content :
  In f files ->
  read_text w (path_join (cv_directory w) f) = Done content ->
  dict_lookup f (omap (cv_entry w markdown) files)
  = Some (VStr (markdown content)).
Proof.
  intros Hin Hf.
  induction files as [|file rest IH]; [destruct Hin|].
  cbn [omap list_omap].
  destruct (String.eqb_spec file f) as [->|Hne].
  - unfold cv_entry at 1. rewrite Hf. cbn [dict_lookup].
    by rewrite String.eqb_refl.
  - destruct Hin as [?|Hin]; [done|].
    unfold cv_entry at 1.
    destruct (read_text w (path_join (cv_directory w) file)).
    + cbn [dict_lookup]. destruct (String.eqb_spec file f); [done|].
      by apply IH.
    + by apply IH.
Qed.

(** X13: when the CV directory can be listed and each of its Markdown
    files can be read, [get_cv] answers 200 with a new mapping whose keys
    are the names ending in [.md], in the order of the listing, each with
    the HTML that [markdown] makes of the file; the other files of the
    directory are left out, readable or not. *)
Theorem get_cv_renders_markdown_files (h0 : heap) (names : list string) :
  listdir w (cv_directory w) = Done names ->
  NoDup names ->
  (forall f, In f names -> endswith ".md" f = true ->
             exists content,
               read_text w (path_join (cv_directory w) f) = Done content) ->
  exists m,
    get_cv w markdown h0
    = Ok {| status := 200; body := VDict (length h0) |} (h0 ++ [m])
    /\ map fst m = List.filter (endswith ".md") names
    /\ forall f content,
         In f names -> endswith ".md" f = true ->
         read_text w (path_join (cv_directory w) f) = Done content ->
         dict_lookup f m = Some (VStr (markdown content)).
Proof.
  intros Hls Hnd Hread.
  set (files := List.filter (endswith ".md") names).
  assert (forall f, In f files -> is_Some (cv_entry w markdown f)) as Hall.
  { intros f [Hin Hmd]%filter_In.
    destruct (Hread f Hin Hmd) as [content Hc].
    unfold cv_entry. rewrite Hc. by eexists. }
  exists (omap (cv_entry w markdown) files). split; [|split].
  - unfold get_cv, load_cv_data. rewrite Hls.
    rewrite !bind_assoc. mstep ltac:(reflexivity).
    rewrite !bind_assoc. mstep ltac:(reflexivity).
    rewrite !bind_assoc.
    mstep ltac:(apply (load_cv_files_run h0 files []);
                [unfold files;
                 by apply NoDup_ListNoDup, List.NoDup_filter, NoDup_ListNoDup
                |done | exact Hall]).
    reflexivity.
  - by apply cv_entries_keys.
  - intros f content Hin Hmd Hc. apply cv_entries_lookup; [|done].
    apply filter_In. by split.
Qed.

End Cv.

(** ** The industries *)


Section Industries.

Variable w : world.
Variable safe_load : string -> heap -> option (pyval * heap).








(** X16: the listing of the industries directory is not guarded: when it
    fails, the error leaves [load_industry_data], and [get_industries] and
    [get_industry] fail with it. *)
Theorem industries_listing_failure_propagates (h0 : heap) (e : exn) :
  listdir w (industry_directory w) = Failed e ->
  get_industries w safe_load h0 = Raise e
  /\ forall industry_id, get_industry w safe_load industry_id h0 = Raise e.
Proof.
  intros He.
  assert (load_industry_data w safe_load h0 = Raise e) as Hload
    by (unfold load_industry_data; by rewrite He).
  split; [|intros industry_id]; by apply bind_raise.
Qed.

End Industries.

(** ** Which project an id designates *)


Section Designation.

Variable w : world.
Variable safe_load : string -> heap -> option (pyval * heap).


End Designation.

(** ** The ids of the relevance table *)

Lemma index_rejected_answer w safe_load pid (h : heap) :
  index_rejected pid = true ->
  answers (get_project w safe_load pid h) 400
    (error_body "Invalid project index").
Proof.
  unfold index_rejected.
  destruct (split "-" pid) as [|p0 [|p1 rest]] eqn:Hsplit; try discriminate.
  destruct (py_int p1) eqn:Hint; [discriminate|].
  intros _. by eapply get_project_bad_index.
Qed.

Lemma table_lookup_In {A} k (tbl : list (string * A)) v :
  table_lookup k tbl = Some v -> exists k', In (k', v) tbl.
Proof.
  induction tbl as [|[k' v'] tbl IH]; [discriminate|].
  cbn [table_lookup]. destruct (String.eqb k' k).
  - intros [= ->]. exists k'. by left.
  - intros (k'' & Hin)%IH. exists k''. by right.
Qed.

(** X18: no project id of the relevance table can be looked up.  Whatever
    the industry asked for, every id listed in the answer of
    [get_industry_project_relevance], under 'relevant_projects' or
    'highlight_projects', is answered by [get_project] with 400
    [{"error": "Invalid project index"}], whatever the projects file. *)
Theorem relevance_ids_are_rejected (industry_id : string) (h0 : heap) :
  exists e,
    answers (get_industry_project_relevance industry_id h0) 200
      (relevance_entry e)
    /\ forall pid, In pid (e.1 ++ e.2) ->
       forall w safe_load (h : heap),
         answers (get_project w safe_load pid h) 400
           (error_body "Invalid project index").
Proof.
  eexists. split; [apply relevance_answer|].
  intros pid Hpid w safe_load h. apply index_rejected_answer.
  assert (forallb (fun ke => forallb index_rejected (ke.2.1 ++ ke.2.2))
            relevance_table = true) as Hall by (vm_compute; reflexivity).
  rewrite forallb_forall in Hall.
  destruct (table_lookup industry_id relevance_table) as [e|] eqn:He.
  - destruct (table_lookup_In _ _ _ He) as (k & Hin).
    specialize (Hall _ Hin). rewrite forallb_forall in Hall.
    by apply Hall.
  - assert (In ("custom", default ([], [])
                            (table_lookup "custom" relevance_table))
               relevance_table) as Hin
      by (cbn; tauto).
    specialize (Hall _ Hin). rewrite forallb_forall in Hall.
    by apply Hall.
Qed.

(** ** The further properties on the sample worlds *)

Ltac solve_is_category :=
  eexists _, _; split; [reflexivity|]; split; [reflexivity|];
  split; [reflexivity|]; split; [reflexivity|];
  repeat constructor; by eexists.



Lemma get_project_index_nonneg_witness : (0 <= 12)%Z.
Proof.
  exact (get_project_index_nonneg "research-12" "research" "12" [] 12
           eq_refl eq_refl).
Defined.


Lemma get_project_reaches_dashless_slugs_witness :
  exists r h',
    get_project (Sample.with_projects "lab") Sample.safe_load
      "research-0" [] = Ok r h'
    /\ exists c a,
         c ∈ Sample.lab_view /\ a ∈ c.2 /\ body r = VDict a
         /\ all_chars not_dash (slugify c.1) = true.
Proof.
  eexists _, _. split; [vm_compute; reflexivity|].
  eapply (get_project_reaches_dashless_slugs (Sample.with_projects "lab")
            Sample.safe_load "research-0" [] Sample.lab_heap);
    [exact lab_loaded | exact lab_is_document | vm_compute; reflexivity
    |reflexivity].
Defined.

Lemma get_projects_lists_categories_witness :
  get_projects (Sample.with_projects "lab") Sample.safe_load []
  = Ok {| status := 200; body := VDict 12 |}
       (Sample.lab_heap
          ++ [ [("id", VStr "research"); ("name", VStr "Research");
                ("projectCount", VInt 2)];
               [("id", VStr "data-science"); ("name", VStr "Data Science");
                ("projectCount", VInt 1)];
               [("id", VStr "data-science"); ("name", VStr "data science");
                ("projectCount", VInt 2)];
               [("categories", VList [VDict 9; VDict 10; VDict 11])] ]).
Proof.
  exact (get_projects_lists_categories (Sample.with_projects "lab")
           Sample.safe_load [] Sample.lab_heap (VDict 8) Sample.lab_view
           lab_loaded lab_is_document).
Defined.



Lemma get_project_industry_applications_witness :
  exists r h',
    get_project (Sample.with_projects "lab") Sample.safe_load
      "research-0" [] = Ok r h'
    /\ exists root (h : heap) a d d',
         load_project_data (Sample.with_projects "lab") Sample.safe_load []
         = Ok root h
         /\ body r = VDict a /\ h !! a = Some d /\ h' !! a = Some d'
         /\ (dict_lookup "industry_applications" d = None ->
             dict_lookup "industry_applications" d'
             = Some (VList [ VDict (length h); VDict (S (length h));
                             VDict (S (S (length h))) ])
             /\ forall i e,
                  default_industry_applications !! i = Some e ->
                  h' !! (length h + i)
                  = Some [("industry", VStr e.1); ("application", VStr e.2)])
         /\ (forall v, dict_lookup "industry_applications" d = Some v ->
                       dict_lookup "industry_applications" d' = Some v
                       /\ length h' = length h).
Proof.
  eexists _, _. split; [vm_compute; reflexivity|].
  apply (get_project_industry_applications (Sample.with_projects "lab")
           Sample.safe_load "research-0" []); reflexivity.
Defined.

Lemma get_project_keeps_the_rest_witness :
  exists r h',
    get_project (Sample.with_projects "lab") Sample.safe_load
      "research-1" [] = Ok r h'
    /\ exists root (h : heap) a d d',
         load_project_data (Sample.with_projects "lab") Sample.safe_load []
         = Ok root h
         /\ body r = VDict a /\ h !! a = Some d /\ h' !! a = Some d'
         /\ dict_lookup "id" d' = Some (VStr "research-1")
         /\ (forall k, k <> "id" -> k <> "industry_applications" ->
                       k <> "capabilities" ->
                       dict_lookup k d' = dict_lookup k d)
         /\ (forall a' d0, a' <> a -> h !! a' = Some d0 ->
                           h' !! a' = Some d0).
Proof.
  eexists _, _. split; [vm_compute; reflexivity|].
  apply (get_project_keeps_the_rest (Sample.with_projects "lab")
           Sample.safe_load "research-1" []); reflexivity.
Defined.


Lemma nameless_category_raises_witness :
  get_projects (Site.site "nameless") Site.safe_load [] = Raise KeyError.
Proof.
  apply (nameless_category_raises (Site.site "nameless") Site.safe_load
           [] Site.nameless_heap (VDict 3) 3 2
           [("projects", VList [VDict 1; VDict 2])]
           [("projects", VList [])] [VDict 1] [] [("Research", [0])]);
    try reflexivity.
  repeat constructor. solve_is_category.
Defined.

Lemma industry_id_of_plain_name_witness :
  industry_id_of ("finance" +:+ ".yaml") = "finance".
Proof. exact (industry_id_of_plain_name "finance" eq_refl). Defined.

Lemma get_cv_renders_markdown_files_witness :
  exists m,
    get_cv (Site.site "blank") Site.markdown []
    = Ok {| status := 200; body := VDict 0 |} [m]
    /\ map fst m = ["cv.md"; "talks.md"]
    /\ dict_lookup "talks.md" m = Some (VStr "<p>Talks</p>").
Proof.
  destruct (get_cv_renders_markdown_files (Site.site "blank") Site.markdown
              [] ["cv.md"; "notes.txt"; "talks.md"] eq_refl)
    as (m & Hrun & Hkeys & Hall).
  - apply (bool_decide_unpack (NoDup _)). by vm_compute.
  - intros f [<-|[<-|[<-|[]]]] Hmd; try discriminate Hmd; by eexists.
  - exists m. split; [exact Hrun|]. split; [exact Hkeys|].
    apply (Hall "talks.md" "Talks"); [cbn; tauto|reflexivity..].
Defined.



Lemma industries_listing_failure_propagates_witness :
  get_industries Sample.bare Sample.safe_load [] = Raise OSError
  /\ forall industry_id,
       get_industry Sample.bare Sample.safe_load industry_id []
       = Raise OSError.
Proof.
  exact (industries_listing_failure_propagates Sample.bare Sample.safe_load
           [] OSError eq_refl).
Defined.

